(** * computeSales: a shallow embedding of [TC2/computeSales.py]

    The program loads a price catalogue and a sales record (two JSON
    documents), builds a dictionary from product title to unit price, folds
    the sale records into a total cost and an error count, and prints and
    writes a report.

    Python values are the trees [json.load] produces; numbers of type
    [float] are IEEE binary64 values, modelled by Rocq's primitive floats, so
    that [+] and [*] below round exactly as the interpreter's do.  Exceptions
    are explicit results, and the console, the dictionary objects, the clock
    and the disk form the state that the functions thread through. *)

From Stdlib Require Import ZArith List String Bool Lia Permutation Floats.
Import ListNotations.

Local Open Scope string_scope.
Local Open Scope list_scope.
Local Open Scope Z_scope.

Set Warnings "-register-all".

(** ** Values *)

(** What [json.load] returns: [None], [bool], [int] (unbounded), [float]
    (including the constants [NaN], [Infinity] and [-Infinity]), [str], [list]
    and [dict] with [str] keys.  A [dict] is given by its items; looking a key
    up takes the first item that has it. *)
Inductive value : Type :=
| VNone
| VBool (b : bool)
| VInt (n : Z)
| VFloat (x : float)
| VStr (s : string)
| VList (items : list value)
| VDict (items : list (string * value)).

Definition is_none (v : value) : bool :=
  match v with VNone => true | _ => false end.

Definition is_list (v : value) : bool :=
  match v with VList _ => true | _ => false end.

Definition is_dict (v : value) : bool :=
  match v with VDict _ => true | _ => false end.

(** ** Exceptions *)

(** The exception classes that the built-ins used by the program can raise,
    with the part of the interpreter's class hierarchy that lies above them.
    [IOError] is an alias of [OSError]. *)
Inductive exn_class : Type :=
| BaseException | SystemExit | Exception
| ArithmeticError | OverflowError
| AttributeError
| OSError | FileNotFoundError | PermissionError | IsADirectoryError
| RuntimeError | RecursionError
| TypeError
| ValueError | JSONDecodeError | UnicodeError | UnicodeDecodeError.

Definition superclass (c : exn_class) : option exn_class :=
  match c with
  | BaseException => None
  | SystemExit | Exception => Some BaseException
  | ArithmeticError | AttributeError | OSError | RuntimeError
  | TypeError | ValueError => Some Exception
  | OverflowError => Some ArithmeticError
  | FileNotFoundError | PermissionError | IsADirectoryError => Some OSError
  | RecursionError => Some RuntimeError
  | JSONDecodeError | UnicodeError => Some ValueError
  | UnicodeDecodeError => Some UnicodeError
  end.

Definition exn_class_eqb (a b : exn_class) : bool :=
  match a, b with
  | BaseException, BaseException | SystemExit, SystemExit
  | Exception, Exception | ArithmeticError, ArithmeticError
  | OverflowError, OverflowError | AttributeError, AttributeError
  | OSError, OSError | FileNotFoundError, FileNotFoundError
  | PermissionError, PermissionError | IsADirectoryError, IsADirectoryError
  | RuntimeError, RuntimeError | RecursionError, RecursionError
  | TypeError, TypeError | ValueError, ValueError
  | JSONDecodeError, JSONDecodeError | UnicodeError, UnicodeError
  | UnicodeDecodeError, UnicodeDecodeError => true
  | _, _ => false
  end.

(** [issubclass c d]; the hierarchy above is four levels deep. *)
Fixpoint subclass_upto (depth : nat) (c d : exn_class) : bool :=
  exn_class_eqb c d ||
  match depth with
  | O => false
  | S depth' =>
      match superclass c with
      | Some c' => subclass_upto depth' c' d
      | None => false
      end
  end.

Definition issubclass : exn_class -> exn_class -> bool := subclass_upto 4.

(** A raised exception: its class, and the status it carries when it is the
    [SystemExit] of [sys.exit(status)]. *)
Record exn : Type := Exn { exn_cls : exn_class; exn_status : Z }.

Definition raised (c : exn_class) : exn := Exn c 0.

(** Whether a clause [except (c1, ..., cn)] handles the exception. *)
Definition handled_by (classes : list exn_class) (e : exn) : bool :=
  existsb (issubclass (exn_cls e)) classes.

Inductive result (A : Type) : Type :=
| Ok (a : A)
| Raise (e : exn).
Arguments Ok {A} a.
Arguments Raise {A} e.

(** ** Dictionary keys *)

(** A [dict] finds a key by hash and [==].  On the values a JSON document can
    hold, [==] identifies [True] with [1], [False] with [0], and an [int] with
    the [float] of exactly the same numeric value; [list] and [dict] are not
    hashable.  A key is therefore kept as the class of its value: integral
    numbers by their integer, the other finite floats by sign, mantissa and
    exponent, which [Prim2SF] gives in canonical form.  The decoder uses one
    object for every [NaN] it reads, and a [dict] finds an identical object
    without calling [==], so that [NaN] is one key as well. *)
Inductive hkey : Type :=
| KNone
| KStr (s : string)
| KInt (n : Z)
| KFrac (sign : bool) (m : positive) (e : Z)
| KInf (sign : bool)
| KNaN.

Definition hkey_eq_dec (a b : hkey) : {a = b} + {a <> b}.
Proof.
  decide equality;
    first [ apply string_dec | apply Z.eq_dec | apply Pos.eq_dec | apply bool_dec ].
Defined.

Definition float_key (x : float) : hkey :=
  match Prim2SF x with
  | S754_zero _ => KInt 0
  | S754_infinity s => KInf s
  | S754_nan => KNaN
  | S754_finite s m e =>
      if 0 <=? e then KInt (cond_Zopp s (Zpos m * 2 ^ e))
      else if Zpos m mod 2 ^ (- e) =? 0
           then KInt (cond_Zopp s (Zpos m / 2 ^ (- e)))
           else KFrac s m e
  end.

(** [None] of [key_of] is [TypeError: unhashable type]. *)
Definition key_of (v : value) : option hkey :=
  match v with
  | VNone => Some KNone
  | VBool b => Some (KInt (if b then 1 else 0))
  | VInt n => Some (KInt n)
  | VFloat x => Some (float_key x)
  | VStr s => Some (KStr s)
  | VList _ | VDict _ => None
  end.

(** The dictionary from title to price, in insertion order.  Assigning to a
    key that is present replaces its value where it stands. *)
Definition pdict : Type := list (hkey * float).

Fixpoint pd_get (k : hkey) (d : pdict) : option float :=
  match d with
  | [] => None
  | (k', p) :: d' => if hkey_eq_dec k' k then Some p else pd_get k d'
  end.

Fixpoint pd_set (k : hkey) (p : float) (d : pdict) : pdict :=
  match d with
  | [] => [(k, p)]
  | (k', p') :: d' =>
      if hkey_eq_dec k' k then (k', p) :: d' else (k', p') :: pd_set k p d'
  end.

(** [d.get(key)] on the items of a JSON object: [None] when absent. *)
Fixpoint items_get (key : string) (items : list (string * value)) : value :=
  match items with
  | [] => VNone
  | (k, v) :: items' => if String.eqb k key then v else items_get key items'
  end.

(** [v.get(key)]: only a [dict] has the method. *)
Definition py_get (v : value) (key : string) : result value :=
  match v with
  | VDict items => Ok (items_get key items)
  | _ => Raise (raised AttributeError)
  end.

(** ** Numbers *)

(** [float(n)] for an [int]: the nearest binary64 value, ties to even;
    [None] is [OverflowError: int too large to convert to float]. *)
Definition float_of_int (n : Z) : option float :=
  match binary_normalize prec emax n 0 false with
  | S754_infinity _ => None
  | sf => Some (SF2Prim sf)
  end.

(** ** Console, report and state *)

(** The report of [main]:
<<
Resultados de la Computacion de Ventas
-------------------------------------
Costo Total: $<total_cost, two decimals>
Errores encontrados: <error_count>
Tiempo de Ejecucion: <elapsed_time, two decimals> segundos
>>
    kept as the three numbers it is formatted from. *)
Record report : Type := Report {
  rep_total_cost : float;
  rep_error_count : nat;
  rep_elapsed_time : float
}.

(** One [print] call each; the f-strings keep their arguments. *)
Inductive message : Type :=
| MsgErrorAlLeer (filename : string) (e : exn)
    (* Error al leer {filename}: {e} *)
| MsgFaltaTitlePrice
    (* Falta 'title' o 'price' en un producto, se omite. *)
| MsgPrecioInvalidoSeOmite (title : value)
    (* Precio invalido para el producto '{title}', se omite. *)
| MsgCatalogoSinTitlePrice
    (* El catalogo no contiene 'title' o 'price' en el producto. *)
| MsgPrecioInvalido (title : value)
    (* Precio invalido para el producto '{title}'. *)
| MsgFormatoCatalogo
    (* El formato del catalogo de precios no es el esperado. *)
| MsgVentasNoLista
    (* El registro de ventas no esta en formato de lista. *)
| MsgRegistroInvalido
    (* Registro de venta invalido, se esperaba un diccionario. *)
| MsgFaltaProductQuantity
    (* Falta 'Product' o 'Quantity' en el registro de venta. *)
| MsgCantidadInvalida (product : value)
    (* Cantidad invalida para el producto '{product}'. *)
| MsgNoEncontrado (product : value)
    (* Producto '{product}' no encontrado en el catalogo. *)
| MsgUso
    (* Uso: python computeSales.py priceCatalogue.json salesRecord.json *)
| MsgErrorCatalogo
    (* Error al cargar el catalogo de precios. Saliendo. *)
| MsgErrorVentas
    (* Error al cargar el registro de ventas. Saliendo. *)
| MsgResultados (r : report)
| MsgErrorEscribir (e : exn)
    (* Error al escribir en SalesResults.txt: {e} *).

(** A reference to a dictionary object. *)
Definition ref : Type := nat.

(** The state of a run.  [heap] holds the dictionary objects, [next_ref] is
    the first reference not yet in use, [stdout] the lines printed so far.
    The rest is the environment of the process: [argv] is [sys.argv];
    [clock n] is what the [n]-th call of [time.time()] returns; [disk path]
    is what opening [path] for reading and decoding its content with
    [json.load] gives; [write_error path] is the exception that opening
    [path] for writing raises, if any; [written] lists the files written. *)
Record world : Type := World {
  heap : ref -> pdict;
  next_ref : ref;
  stdout : list message;
  argv : list string;
  clock : nat -> float;
  ticks : nat;
  disk : string -> result value;
  write_error : string -> option exn;
  written : list (string * report)
}.

(** ** The monad of state and exceptions *)

Definition M (A : Type) : Type := world -> result A * world.

Definition ret {A} (a : A) : M A := fun w => (Ok a, w).

Definition bind {A B} (m : M A) (f : A -> M B) : M B :=
  fun w =>
    match m w with
    | (Ok a, w') => f a w'
    | (Raise e, w') => (Raise e, w')
    end.

Definition raise {A} (e : exn) : M A := fun w => (Raise e, w).

Definition lift {A} (r : result A) : M A := fun w => (r, w).

Notation "x <- m ;; k" := (bind m (fun x => k))
  (at level 61, m at next level, right associativity).
Notation "m ;;; k" := (bind m (fun _ => k))
  (at level 61, right associativity).

(** [try: body / except classes as e: handler e]. *)
Definition try_except {A} (body : M A) (classes : list exn_class)
    (handler : exn -> M A) : M A :=
  fun w =>
    match body w with
    | (Raise e, w') =>
        if handled_by classes e then handler e w' else (Raise e, w')
    | ok => ok
    end.

(** [for x in xs: acc = body acc x]. *)
Fixpoint for_in {A S} (body : S -> A -> M S) (xs : list A) (acc : S) : M S :=
  match xs with
  | [] => ret acc
  | x :: xs' => acc' <- body acc x ;; for_in body xs' acc'
  end.

Definition set_heap (h : ref -> pdict) (n : ref) (w : world) : world :=
  World h n (stdout w) (argv w) (clock w) (ticks w) (disk w)
        (write_error w) (written w).

Definition print (m : message) : M unit :=
  fun w =>
    (Ok tt, World (heap w) (next_ref w) (stdout w ++ [m]) (argv w) (clock w)
                  (ticks w) (disk w) (write_error w) (written w)).

Definition heap_put (r : ref) (d : pdict) (h : ref -> pdict) : ref -> pdict :=
  fun r' => if Nat.eqb r' r then d else h r'.

(** [{}]: a new, empty dictionary object. *)
Definition new_dict : M ref :=
  fun w =>
    (Ok (next_ref w), set_heap (heap_put (next_ref w) [] (heap w)) (S (next_ref w)) w).

(** [d[key] = p]. *)
Definition dict_setitem (d : ref) (key : value) (p : float) : M unit :=
  fun w =>
    match key_of key with
    | None => (Raise (raised TypeError), w)
    | Some k => (Ok tt, set_heap (heap_put d (pd_set k p (heap w d)) (heap w)) (next_ref w) w)
    end.

(** [d.get(key)], for a dictionary of prices: no price is [None], so the
    answer [None] of [get] is the [None] here. *)
Definition dict_get (d : ref) (key : value) : M (option float) :=
  fun w =>
    match key_of key with
    | None => (Raise (raised TypeError), w)
    | Some k => (Ok (pd_get k (heap w d)), w)
    end.

(** [time.time()]. *)
Definition time_time : M float :=
  fun w =>
    (Ok (clock w (ticks w)),
     World (heap w) (next_ref w) (stdout w) (argv w) (clock w) (S (ticks w))
           (disk w) (write_error w) (written w)).

(** [sys.exit(status)]. *)
Definition sys_exit {A} (status : Z) : M A := raise (Exn SystemExit status).

(** [with open(path, 'r', encoding='utf-8') as f: return json.load(f)]. *)
Definition open_and_load (path : string) : M value :=
  fun w => (disk w path, w).

(** [with open(path, "w", encoding="utf-8") as f: f.write(text)]. *)
Definition open_and_write (path : string) (text : report) : M unit :=
  fun w =>
    match write_error w path with
    | Some e => (Raise e, w)
    | None =>
        (Ok tt,
         World (heap w) (next_ref w) (stdout w) (argv w) (clock w) (ticks w)
               (disk w) (write_error w)
               ((path, text) :: filter (fun f => negb (String.eqb (fst f) path)) (written w)))
    end.

(** ** The program *)

Section Program.

(** [float(s)] for a [str]: the interpreter's reading of a decimal numeral,
    [None] for [ValueError]. *)
Variable float_of_str : string -> option float.

(** [float(v)]. *)
Definition py_float (v : value) : result float :=
  match v with
  | VFloat x => Ok x
  | VInt n =>
      match float_of_int n with
      | Some x => Ok x
      | None => Raise (raised OverflowError)
      end
  | VBool b => Ok (if b then 1%float else 0%float)
  | VStr s =>
      match float_of_str s with
      | Some x => Ok x
      | None => Raise (raised ValueError)
      end
  | VNone | VList _ | VDict _ => Raise (raised TypeError)
  end.

(** [load_json_file(filename)], lines 30-35. *)
Definition load_json_file (filename : string) : M value :=
  try_except (open_and_load filename) [OSError; JSONDecodeError]
    (fun e => print (MsgErrorAlLeer filename e) ;;; ret VNone).

(** The body of the loop of [build_price_dict], lines 56-66. *)
Definition catalogue_entry (price_dict : ref) (_ : unit) (product : value) : M unit :=
  title <- lift (py_get product "title") ;;
  price <- lift (py_get product "price") ;;
  if is_none title || is_none price then
    print MsgFaltaTitlePrice
  else
    price' <- try_except (p <- lift (py_float price) ;; ret (Some p)) [ValueError]
                (fun _ => print (MsgPrecioInvalidoSeOmite title) ;;; ret None) ;;
    match price' with
    | None => ret tt
    | Some price => dict_setitem price_dict title price
    end.

(** [build_price_dict(price_data)], lines 52-81. *)
Definition build_price_dict (price_data : value) : M ref :=
  price_dict <- new_dict ;;
  match price_data with
  | VList products => for_in (catalogue_entry price_dict) products tt
  | VDict _ =>
      title <- lift (py_get price_data "title") ;;
      price <- lift (py_get price_data "price") ;;
      if is_none title || is_none price then
        print MsgCatalogoSinTitlePrice
      else
        price' <- try_except (p <- lift (py_float price) ;; ret (Some p)) [ValueError]
                    (fun _ => print (MsgPrecioInvalido title) ;;; ret None) ;;
        match price' with
        | None => ret tt
        | Some price => dict_setitem price_dict title price
        end
  | _ => print MsgFormatoCatalogo
  end ;;;
  ret price_dict.

(** The body of the loop of [process_sales], lines 107-133, on the locals
    [(total_cost, error_count)]. *)
Definition sale_record (price_dict : ref) (acc : float * nat) (sale : value)
    : M (float * nat) :=
  let '(total_cost, error_count) := acc in
  if negb (is_dict sale) then
    print MsgRegistroInvalido ;;; ret (total_cost, S error_count)
  else
    product <- lift (py_get sale "Product") ;;
    quantity <- lift (py_get sale "Quantity") ;;
    if is_none product || is_none quantity then
      print MsgFaltaProductQuantity ;;; ret (total_cost, S error_count)
    else
      quantity' <- try_except (q <- lift (py_float quantity) ;; ret (Some q))
                     [ValueError; TypeError]
                     (fun _ => print (MsgCantidadInvalida product) ;;; ret None) ;;
      match quantity' with
      | None => ret (total_cost, S error_count)
      | Some quantity =>
          price <- dict_get price_dict product ;;
          match price with
          | None => print (MsgNoEncontrado product) ;;; ret (total_cost, S error_count)
          | Some price => ret ((total_cost + price * quantity)%float, error_count)
          end
      end.

(** [process_sales(price_dict, sales_data)], lines 99-135. *)
Definition process_sales (price_dict : ref) (sales_data : value) : M (float * nat) :=
  let total_cost := 0%float in
  let error_count := O in
  match sales_data with
  | VList sales => for_in (sale_record price_dict) sales (total_cost, error_count)
  | _ => print MsgVentasNoLista ;;; ret (total_cost, error_count)
  end.

(** Lines 166-167 of [main]: the catalogue is built, then the sales are
    processed against it. *)
Definition compute_sales (price_data sales_data : value) : M (float * nat) :=
  price_dict <- build_price_dict price_data ;;
  process_sales price_dict sales_data.

(** [len(sys.argv)]. *)
Definition len_sys_argv : M nat :=
  fun w => (Ok (List.length (argv w)), w).

(** [sys.argv[i]], for [i] below [len(sys.argv)]. *)
Definition sys_argv (i : nat) : M string :=
  fun w => (Ok (nth i (argv w) ""), w).

(** [main()], lines 144-186. *)
Definition main : M unit :=
  start_time <- time_time ;;
  n <- len_sys_argv ;;
  (if negb (Nat.eqb n 3) then print MsgUso ;;; sys_exit 1 else ret tt) ;;;
  price_file <- sys_argv 1 ;;
  sales_file <- sys_argv 2 ;;
  price_data <- load_json_file price_file ;;
  (if is_none price_data then print MsgErrorCatalogo ;;; sys_exit 1 else ret tt) ;;;
  sales_data <- load_json_file sales_file ;;
  (if is_none sales_data then print MsgErrorVentas ;;; sys_exit 1 else ret tt) ;;;
  res <- compute_sales price_data sales_data ;;
  now <- time_time ;;
  let elapsed_time := (now - start_time)%float in
  let result_str := Report (fst res) (snd res) elapsed_time in
  print (MsgResultados result_str) ;;;
  try_except (open_and_write "SalesResults.txt" result_str) [OSError]
    (fun e => print (MsgErrorEscribir e)).

(** The status the process ends with: 0 when [main] returns, the status of
    [sys.exit], and 1 when any other exception reaches the top level. *)
Definition exit_status (r : result unit) : Z :=
  match r with
  | Ok _ => 0
  | Raise e => if exn_class_eqb (exn_cls e) SystemExit then exn_status e else 1
  end.

End Program.

(** ** What the specification says, in its own words *)

Section Specification.

Variable float_of_str : string -> option float.

(** A sale record is valid when it is mapping-shaped, has both [Product] and
    [Quantity], its [Quantity] is coercible to a number and its [Product] is a
    key of the catalogue mapping; its cost is then [price * quantity]. *)
Definition sale_cost (pd : pdict) (sale : value) : option float :=
  match sale with
  | VDict items =>
      let product := items_get "Product" items in
      let quantity := items_get "Quantity" items in
      if is_none product || is_none quantity then None
      else
        match py_float float_of_str quantity, key_of product with
        | Ok q, Some k =>
            match pd_get k pd with
            | Some p => Some (p * q)%float
            | None => None
            end
        | _, _ => None
        end
  | _ => None
  end.

Definition valid_sale (pd : pdict) (sale : value) : bool :=
  match sale_cost pd sale with Some _ => true | None => false end.

(** The costs of the valid records, in the order of the records. *)
Definition sale_costs (pd : pdict) (sales : list value) : list float :=
  flat_map (fun sale => match sale_cost pd sale with
                        | Some c => [c]
                        | None => []
                        end) sales.

(** The sum as the program accumulates it: from the left, each addition
    rounded to binary64. *)
Definition float_sum_from (start : float) (costs : list float) : float :=
  fold_left PrimFloat.add costs start.

Definition float_sum (costs : list float) : float := float_sum_from 0%float costs.

(** The number of records that are not valid. *)
Definition rejected (pd : pdict) (sales : list value) : nat :=
  List.length (filter (fun sale => negb (valid_sale pd sale)) sales).

(** The exception a sale record lets escape from [process_sales], if any:
    what [float(quantity)] raises outside [ValueError] and [TypeError], and
    the [TypeError] of looking up a product that is not hashable. *)
Definition sale_escape (sale : value) : option exn :=
  match sale with
  | VDict items =>
      let product := items_get "Product" items in
      let quantity := items_get "Quantity" items in
      if is_none product || is_none quantity then None
      else
        match py_float float_of_str quantity with
        | Raise e => if handled_by [ValueError; TypeError] e then None else Some e
        | Ok _ =>
            match key_of product with
            | None => Some (raised TypeError)
            | Some _ => None
            end
        end
  | _ => None
  end.

(** A catalogue entry is valid when it has a [title] and a [price] and the
    price is numeric; it then binds the title to the price. *)
Definition entry_price (entry : value) : option (hkey * float) :=
  match entry with
  | VDict items =>
      let title := items_get "title" items in
      let price := items_get "price" items in
      if is_none title || is_none price then None
      else
        match py_float float_of_str price, key_of title with
        | Ok p, Some k => Some (k, p)
        | _, _ => None
        end
  | _ => None
  end.

(** The price of the last valid entry of the sequence that has title [k]. *)
Definition last_valid_price (k : hkey) (entries : list value) : option float :=
  fold_left (fun found entry =>
               match entry_price entry with
               | Some (k', p) => if hkey_eq_dec k' k then Some p else found
               | None => found
               end) entries None.

(** What an entry does to the mapping: a valid one binds its title. *)
Definition apply_entry (d : pdict) (entry : value) : pdict :=
  match entry_price entry with
  | Some (k, p) => pd_set k p d
  | None => d
  end.

(** The exception a catalogue entry lets escape from [build_price_dict], if
    any. *)
Definition entry_escape (entry : value) : option exn :=
  match entry with
  | VDict items =>
      let title := items_get "title" items in
      let price := items_get "price" items in
      if is_none title || is_none price then None
      else
        match py_float float_of_str price with
        | Raise e => if handled_by [ValueError] e then None else Some e
        | Ok _ =>
            match key_of title with
            | None => Some (raised TypeError)
            | Some _ => None
            end
        end
  | _ => Some (raised AttributeError)
  end.

(** The records of a sales document: the elements of a sequence; any other
    document has none. *)
Definition sale_records (sales_data : value) : list value :=
  match sales_data with
  | VList sales => sales
  | _ => []
  end.

(** The entries of a catalogue document: the elements of a sequence, or the
    single mapping itself. *)
Definition catalogue_entries (price_data : value) : list value :=
  match price_data with
  | VList products => products
  | VDict _ => [price_data]
  | _ => []
  end.

End Specification.

(** ** Concrete data used by the examples below *)

(** A world with nothing printed or written, [sys.argv] as given, and one
    dictionary object, at reference 0, holding [pd]. *)
Definition world_with (pd : pdict) (args : list string) : world :=
  World (fun _ => pd) 1%nat [] args (fun _ => 0%float) 0%nat
        (fun _ => Raise (raised FileNotFoundError)) (fun _ => None) [].

(** [{"Product": product, "Quantity": quantity}]. *)
Definition sale_of (product quantity : value) : value :=
  VDict [("Product", product); ("Quantity", quantity)].

(** [{"title": title, "price": price}]. *)
Definition entry_of (title price : value) : value :=
  VDict [("title", title); ("price", price)].

(** A world with the given disk and nothing else. *)
Definition world_on_disk (files : string -> result value) : world :=
  World (fun _ => []) 0%nat [] [] (fun _ => 0%float) 0%nat files (fun _ => None) [].

(** A parser of numerals that accepts no string; the examples below hold
    their numbers as JSON numbers. *)
Definition no_numeral : string -> option float := fun _ => None.

(** A parser of numerals that reads ["9.99"] as the binary64 value nearest
    to 9.99 and accepts nothing else. *)
Definition reads_9_99 : string -> option float :=
  fun s => if String.eqb s "9.99" then Some 0x1.3fae147ae147bp+3%float else None.

(** [{"Widget": 2.5}]. *)
Definition widget_prices : pdict := [(KStr "Widget", 2.5%float)].

(** [[{"Product": ["Widget"], "Quantity": 1}]]: the product is a list. *)
Definition sales_list_product : list value :=
  [sale_of (VList [VStr "Widget"]) (VInt 1)].

(** [[{"Product": "Gadget", "Quantity": 2}, {"Product": {"id": 1}, "Quantity": 1}]]. *)
Definition sales_unknown_then_dict_product : list value :=
  [sale_of (VStr "Gadget") (VInt 2); sale_of (VDict [("id", VInt 1)]) (VInt 1)].

(** [[{"Product": "Widget", "Quantity": 10 ** 400}]]. *)
Definition sales_huge_quantity : list value :=
  [sale_of (VStr "Widget") (VInt (10 ^ 400))].

(** [[{"title": "Widget", "price": 2.5}]]. *)
Definition widget_catalogue : value :=
  VList [entry_of (VStr "Widget") (VFloat 2.5)].

(** [[{"title": "Widget", "price": 2.5}, {"title": "Widget", "price": 4}]]. *)
Definition widget_twice : list value :=
  [entry_of (VStr "Widget") (VFloat 2.5); entry_of (VStr "Widget") (VInt 4)].

(** [{"A": 9007199254740992.0, "B": 1.0}]; the first price is 2 ** 53. *)
Definition big_and_small : pdict :=
  [(KStr "A", 9007199254740992%float); (KStr "B", 1%float)].

Definition sales_big_first : list value :=
  [sale_of (VStr "A") (VInt 1); sale_of (VStr "B") (VInt 1); sale_of (VStr "B") (VInt 1)].

Definition sales_big_last : list value :=
  [sale_of (VStr "B") (VInt 1); sale_of (VStr "B") (VInt 1); sale_of (VStr "A") (VInt 1)].

(** [[{"Product": "Widget", "Quantity": -3}]]. *)
Definition sales_negative_quantity : list value :=
  [sale_of (VStr "Widget") (VInt (-3))].

(** [[{"Product": "Widget", "Quantity": 3}]]. *)
Definition sales_three_widgets : list value :=
  [sale_of (VStr "Widget") (VInt 3)].

(** A float is finite and not negative. *)
Definition nonneg_finite (x : float) : Prop :=
  (0 <=? x)%float = true /\ (x <? infinity)%float = true.

(** The spec floats that are not negative: zeros, positive finite numbers
    and [+infinity]. *)
Definition sf_nonneg (x : spec_float) : Prop :=
  match x with
  | S754_zero _ => True
  | S754_finite s _ _ => s = false
  | S754_infinity s => s = false
  | S754_nan => False
  end.

(** [[{"title": "Widget", "price": 2.5}, {}, {"title": "Gadget", "price": "free"},
    {"title": "Widget", "price": 4}]]. *)
Definition catalogue_mixed : value :=
  VList [entry_of (VStr "Widget") (VFloat 2.5); VDict [];
         entry_of (VStr "Gadget") (VStr "free"); entry_of (VStr "Widget") (VInt 4)].

(** [[{"Product": "Widget", "Quantity": 3}, {"Product": "Gadget", "Quantity": 2},
    7, {"Product": "Widget", "Quantity": "abc"}]]. *)
Definition sales_mixed : list value :=
  [sale_of (VStr "Widget") (VInt 3); sale_of (VStr "Gadget") (VInt 2); VInt 7;
   sale_of (VStr "Widget") (VStr "abc")].

(** A disk with a catalogue file and a sales file. *)
Definition two_files (catalogue sales : result value) : string -> result value :=
  fun path =>
    if String.eqb path "catalogue.json" then catalogue
    else if String.eqb path "sales.json" then sales
    else Raise (raised FileNotFoundError).

(** The world of [python computeSales.py catalogue.json sales.json]: the
    clock reads 10.0, then 12.5; an earlier report and another file are on
    the disk; opening the report for writing raises [unwritable], if any. *)
Definition run_world (files : string -> result value) (unwritable : option exn) : world :=
  World (fun _ => []) 0%nat [] ["computeSales.py"; "catalogue.json"; "sales.json"]
        (fun n => if Nat.eqb n 0 then 10%float else 12.5%float) 0%nat
        files (fun _ => unwritable)
        [("SalesResults.txt", Report 1 1 1); ("notes.txt", Report 0 0 0)].

(** ** What a run leaves behind *)

(** The world after the lines [ms] were printed and nothing else happened. *)
Definition log_lines (ms : list message) (w : world) : world :=
  World (heap w) (next_ref w) (stdout w ++ ms) (argv w) (clock w) (ticks w)
        (disk w) (write_error w) (written w).

(** A computation keeps a relation between the world it starts in and the
    world it ends in, whether it returns or raises. *)
Definition keeps {A} (R : world -> world -> Prop) (m : M A) : Prop :=
  forall w, R w (snd (m w)).

(** The environment of the process is as it was: arguments, clock and the
    number of its readings, disk and files written. *)
Definition env_kept (w w' : world) : Prop :=
  argv w' = argv w /\ clock w' = clock w /\ ticks w' = ticks w /\
  disk w' = disk w /\ write_error w' = write_error w /\ written w' = written w.

(** Every dictionary object but [d] holds what it held. *)
Definition others_kept (d : ref) (w w' : world) : Prop :=
  forall r, r <> d -> heap w' r = heap w r.

(** No dictionary object was created. *)
Definition refs_kept (w w' : world) : Prop := next_ref w' = next_ref w.

(** The files other than [path] are as they were. *)
Definition other_files (path : string) (w : world) : list (string * report) :=
  filter (fun f => negb (String.eqb (fst f) path)) (written w).

Definition files_kept_except (path : string) (w w' : world) : Prop :=
  other_files path w' = other_files path w.

(** What [load_json_file] gives for a path, and what it prints. *)
Definition load_result (w : world) (path : string) : result value :=
  match disk w path with
  | Ok v => Ok v
  | Raise e => if handled_by [OSError; JSONDecodeError] e then Ok VNone else Raise e
  end.

Definition load_log (w : world) (path : string) : list message :=
  match disk w path with
  | Ok _ => []
  | Raise e => if handled_by [OSError; JSONDecodeError] e then [MsgErrorAlLeer path e] else []
  end.

(** The caller gets [None] for the path: the file could not be opened or
    parsed, or it holds the document [null]. *)
Definition unavailable (w : world) (path : string) : bool :=
  match load_result w path with
  | Ok VNone => true
  | _ => false
  end.

Section Logs.

Variable float_of_str : string -> option float.

(** The line that [process_sales] prints for a record that it rejects. *)
Definition sale_message (pd : pdict) (sale : value) : option message :=
  match sale with
  | VDict items =>
      let product := items_get "Product" items in
      let quantity := items_get "Quantity" items in
      if is_none product || is_none quantity then Some MsgFaltaProductQuantity
      else
        match py_float float_of_str quantity with
        | Raise _ => Some (MsgCantidadInvalida product)
        | Ok _ =>
            match key_of product with
            | Some k =>
                match pd_get k pd with
                | Some _ => None
                | None => Some (MsgNoEncontrado product)
                end
            | None => None
            end
        end
  | _ => Some MsgRegistroInvalido
  end.

Definition sale_log (pd : pdict) (sales : list value) : list message :=
  flat_map (fun sale => match sale_message pd sale with
                        | Some m => [m]
                        | None => []
                        end) sales.

(** The line that [build_price_dict] prints for an entry of a sequence that
    it skips. *)
Definition entry_message (entry : value) : option message :=
  match entry with
  | VDict items =>
      let title := items_get "title" items in
      let price := items_get "price" items in
      if is_none title || is_none price then Some MsgFaltaTitlePrice
      else
        match py_float float_of_str price with
        | Raise _ => Some (MsgPrecioInvalidoSeOmite title)
        | Ok _ => None
        end
  | _ => None
  end.

(** What [build_price_dict] prints for a catalogue document. *)
Definition catalogue_log (price_data : value) : list message :=
  match price_data with
  | VList products =>
      flat_map (fun entry => match entry_message entry with
                             | Some m => [m]
                             | None => []
                             end) products
  | VDict items =>
      let title := items_get "title" items in
      let price := items_get "price" items in
      if is_none title || is_none price then [MsgCatalogoSinTitlePrice]
      else
        match py_float float_of_str price with
        | Raise _ => [MsgPrecioInvalido title]
        | Ok _ => []
        end
  | _ => [MsgFormatoCatalogo]
  end.

(** The mapping that a catalogue document describes: its valid entries
    applied, in order, to the empty mapping. *)
Definition catalogue_mapping (price_data : value) : pdict :=
  fold_left (apply_entry float_of_str) (catalogue_entries price_data) [].

End Logs.

(** The report of a run that started at the [n]-th reading of the clock. *)
Definition report_of (w : world) (total_cost : float) (error_count : nat) : report :=
  Report total_cost error_count (clock w (S (ticks w)) - clock w (ticks w))%float.

(** * Properties *)

(** ** The monad and the state *)

Lemma heap_put_same (r : ref) (d : pdict) (h : ref -> pdict) :
  heap_put r d h r = d.
Proof. unfold heap_put. now rewrite Nat.eqb_refl. Qed.

(** Keys as a [dict] tells them apart: [1], [1.0] and [True] are one key,
    [0.5] and the string ["1"] are others; a list is not a key. *)
Example key_of_examples :
  key_of (VInt 1) = key_of (VFloat 1) /\
  key_of (VBool true) = key_of (VInt 1) /\
  key_of (VFloat (-0)) = key_of (VInt 0) /\
  key_of (VFloat 0.5) = Some (KFrac false 4503599627370496 (-53)) /\
  key_of (VStr "1") = Some (KStr "1") /\
  key_of (VList [VInt 1]) = None.
Proof. repeat split; reflexivity. Qed.

(** [float(n)] rounds to the nearest float, ties to even, and overflows at
    the midpoint above the largest float. *)
Example float_of_int_examples :
  float_of_int 3 = Some 3%float /\
  float_of_int 9007199254740993 = Some 9007199254740992%float /\
  float_of_int (2 ^ 1024 - 2 ^ 970 - 1) = Some 0x1.fffffffffffffp+1023%float /\
  float_of_int (2 ^ 1024 - 2 ^ 970) = None /\
  float_of_int (- 10 ^ 400) = None.
Proof. repeat split; vm_compute; reflexivity. Qed.

(** The clauses of the program: what each [except] handles. *)
Example handled_by_examples :
  handled_by [OSError; JSONDecodeError] (raised FileNotFoundError) = true /\
  handled_by [OSError; JSONDecodeError] (raised JSONDecodeError) = true /\
  handled_by [OSError; JSONDecodeError] (raised UnicodeDecodeError) = false /\
  handled_by [ValueError] (raised TypeError) = false /\
  handled_by [ValueError; TypeError] (raised OverflowError) = false /\
  handled_by [OSError] (Exn SystemExit 1) = false.
Proof. repeat split; reflexivity. Qed.

Lemma pd_get_set (k k' : hkey) (p : float) (d : pdict) :
  pd_get k (pd_set k' p d) = if hkey_eq_dec k' k then Some p else pd_get k d.
Proof.
  induction d as [|[k0 p0] d IH]; simpl.
  - reflexivity.
  - destruct (hkey_eq_dec k0 k') as [E|N]; simpl.
    + subst k0. destruct (hkey_eq_dec k' k); reflexivity.
    + rewrite IH. destruct (hkey_eq_dec k0 k) as [E0|N0]; [|reflexivity].
      subst k0. destruct (hkey_eq_dec k' k); [congruence | reflexivity].
Qed.


(** ** The sales processor *)

Section SalesProcessor.

Variable float_of_str : string -> option float.

(** One record: it raises what [sale_escape] says, adds its cost when it is
    valid, and counts one error otherwise. *)
Lemma sale_record_result (r : ref) (t : float) (n : nat) (sale : value) (w : world) :
  fst (sale_record float_of_str r (t, n) sale w) =
  match sale_escape float_of_str sale with
  | Some e => Raise e
  | None =>
      match sale_cost float_of_str (heap w r) sale with
      | Some c => Ok ((t + c)%float, n)
      | None => Ok (t, S n)
      end
  end.
Proof.
  destruct sale; try reflexivity.
  unfold sale_record, sale_escape, sale_cost.
  cbn [is_dict negb py_get]. unfold bind at 1 2. cbn [lift].
  destruct (is_none (items_get "Product" items) || is_none (items_get "Quantity" items));
    [reflexivity|].
  unfold bind, try_except, lift, dict_get.
  destruct (py_float float_of_str (items_get "Quantity" items)) as [q|e].
  - cbn. destruct (key_of (items_get "Product" items)) as [k|]; [|reflexivity].
    destruct (pd_get k (heap w r)); reflexivity.
  - destruct (handled_by [ValueError; TypeError] e); reflexivity.
Qed.

(** No record touches a dictionary object, the clock or the disk. *)
Lemma sale_record_frame (r : ref) (acc : float * nat) (sale : value) (w : world) :
  let w' := snd (sale_record float_of_str r acc sale w) in
  heap w' = heap w /\ next_ref w' = next_ref w /\ written w' = written w.
Proof.
  destruct acc as [t n].
  destruct sale; try (cbn; auto).
  unfold sale_record.
  cbn [is_dict negb py_get]. unfold bind at 1 2. cbn [lift].
  destruct (is_none (items_get "Product" items) || is_none (items_get "Quantity" items));
    [cbn; auto|].
  unfold bind, try_except, lift, dict_get.
  destruct (py_float float_of_str (items_get "Quantity" items)) as [q|e].
  - cbn. destruct (key_of (items_get "Product" items)) as [k|]; [|cbn; auto].
    destruct (pd_get k (heap w r)); cbn; auto.
  - destruct (handled_by [ValueError; TypeError] e); cbn; auto.
Qed.

Lemma sales_loop_frame (r : ref) (sales : list value) (acc : float * nat) (w : world) :
  let w' := snd (for_in (sale_record float_of_str r) sales acc w) in
  heap w' = heap w /\ next_ref w' = next_ref w /\ written w' = written w.
Proof.
  revert acc w. induction sales as [|sale sales IH]; intros acc w; simpl.
  - auto.
  - unfold bind.
    pose proof (sale_record_frame r acc sale w) as F. simpl in F.
    destruct (sale_record float_of_str r acc sale w) as [[acc'|e] w1]; simpl in *.
    + specialize (IH acc' w1). simpl in IH.
      destruct IH as (H1 & H2 & H3), F as (F1 & F2 & F3).
      repeat split; congruence.
    + exact F.
Qed.

Lemma sale_costs_cons (pd : pdict) (sale : value) (sales : list value) :
  sale_costs float_of_str pd (sale :: sales) =
  match sale_cost float_of_str pd sale with
  | Some c => c :: sale_costs float_of_str pd sales
  | None => sale_costs float_of_str pd sales
  end.
Proof. unfold sale_costs. simpl. now destruct (sale_cost float_of_str pd sale). Qed.

Lemma rejected_cons (pd : pdict) (sale : value) (sales : list value) :
  rejected float_of_str pd (sale :: sales) =
  match sale_cost float_of_str pd sale with
  | Some _ => rejected float_of_str pd sales
  | None => S (rejected float_of_str pd sales)
  end.
Proof.
  unfold rejected, valid_sale. simpl.
  now destruct (sale_cost float_of_str pd sale).
Qed.

(** The loop, from any values of the locals: when no record lets an exception
    escape, the costs of the valid records are added in order and every
    other record is counted. *)
Lemma sales_loop_result (r : ref) (sales : list value) (t : float) (n : nat) (w : world) :
  Forall (fun sale => sale_escape float_of_str sale = None) sales ->
  fst (for_in (sale_record float_of_str r) sales (t, n) w) =
  Ok (float_sum_from t (sale_costs float_of_str (heap w r) sales),
      (n + rejected float_of_str (heap w r) sales)%nat).
Proof.
  intros Hsafe. revert t n w.
  induction Hsafe as [|sale sales Hs _ IH]; intros t n w.
  - simpl. unfold rejected. simpl. now rewrite Nat.add_0_r.
  - cbn [for_in]. unfold bind.
    pose proof (sale_record_result r t n sale w) as R.
    pose proof (sale_record_frame r (t, n) sale w) as F. cbv zeta in F.
    rewrite Hs in R. rewrite sale_costs_cons, rejected_cons.
    destruct (sale_record float_of_str r (t, n) sale w) as [[acc'|e] w1];
      cbn [fst snd] in *.
    + destruct F as (F1 & _).
      destruct (sale_cost float_of_str (heap w r) sale) as [c|];
        injection R as ->; rewrite IH, F1; [reflexivity|].
      f_equal. f_equal. lia.
    + destruct (sale_cost float_of_str (heap w r) sale); discriminate.
Qed.


(** What the loop returns, when it returns. *)
Lemma sales_loop_inv (r : ref) (sales : list value) (t t' : float) (n n' : nat)
    (w : world) :
  fst (for_in (sale_record float_of_str r) sales (t, n) w) = Ok (t', n') ->
  Forall (fun sale => sale_escape float_of_str sale = None) sales /\
  t' = float_sum_from t (sale_costs float_of_str (heap w r) sales) /\
  n' = (n + rejected float_of_str (heap w r) sales)%nat.
Proof.
  intros H.
  assert (Hsafe : Forall (fun sale => sale_escape float_of_str sale = None) sales).
  { revert t n w H. induction sales as [|sale sales IH]; intros t n w H.
    - constructor.
    - cbn [for_in] in H. unfold bind in H.
      pose proof (sale_record_result r t n sale w) as R.
      destruct (sale_record float_of_str r (t, n) sale w) as [[[t1 n1]|e] w1];
        cbn [fst] in *; [|discriminate].
      constructor; [|now apply (IH t1 n1 w1)].
      destruct (sale_escape float_of_str sale); [discriminate | reflexivity]. }
  rewrite (sales_loop_result r sales t n w Hsafe) in H.
  injection H as <- <-. auto.
Qed.

Lemma valid_sale_safe (pd : pdict) (sale : value) :
  valid_sale float_of_str pd sale = true -> sale_escape float_of_str sale = None.
Proof.
  unfold valid_sale, sale_cost, sale_escape. destruct sale; try reflexivity.
  destruct (is_none (items_get "Product" items) || is_none (items_get "Quantity" items));
    [reflexivity|].
  destruct (py_float float_of_str (items_get "Quantity" items)); [|discriminate].
  destruct (key_of (items_get "Product" items)); [reflexivity | discriminate].
Qed.

Lemma rejected_all_valid (pd : pdict) (sales : list value) :
  Forall (fun sale => valid_sale float_of_str pd sale = true) sales ->
  rejected float_of_str pd sales = O.
Proof.
  induction 1 as [|sale sales Hv _ IH].
  - reflexivity.
  - rewrite rejected_cons. unfold valid_sale in Hv.
    destruct (sale_cost float_of_str pd sale); [exact IH | discriminate].
Qed.

End SalesProcessor.

(** ** The catalogue builder *)

Section CatalogueBuilder.

Variable float_of_str : string -> option float.

Lemma catalogue_entry_result (r : ref) (entry : value) (w : world) :
  fst (catalogue_entry float_of_str r tt entry w) =
  match entry_escape float_of_str entry with
  | Some e => Raise e
  | None => Ok tt
  end.
Proof.
  destruct entry; try reflexivity.
  unfold catalogue_entry, entry_escape.
  cbn [py_get]. unfold bind at 1 2. cbn [lift].
  destruct (is_none (items_get "title" items) || is_none (items_get "price" items));
    [reflexivity|].
  unfold bind, try_except, lift, dict_setitem.
  destruct (py_float float_of_str (items_get "price" items)) as [p|e].
  - cbn. destruct (key_of (items_get "title" items)); reflexivity.
  - destruct (handled_by [ValueError] e); reflexivity.
Qed.

Lemma catalogue_entry_heap (r : ref) (entry : value) (w : world) :
  entry_escape float_of_str entry = None ->
  heap (snd (catalogue_entry float_of_str r tt entry w)) r =
  apply_entry float_of_str (heap w r) entry.
Proof.
  destruct entry; try discriminate.
  unfold catalogue_entry, entry_escape, apply_entry, entry_price.
  cbn [py_get]. unfold bind at 1 2. cbn [lift].
  destruct (is_none (items_get "title" items) || is_none (items_get "price" items));
    [reflexivity|].
  unfold bind, try_except, lift, dict_setitem.
  destruct (py_float float_of_str (items_get "price" items)) as [p|e].
  - cbn. destruct (key_of (items_get "title" items)); [|discriminate].
    intros _. cbn. apply heap_put_same.
  - destruct (handled_by [ValueError] e); [reflexivity | discriminate].
Qed.

Lemma catalogue_loop_ok (r : ref) (entries : list value) (w w' : world) :
  for_in (catalogue_entry float_of_str r) entries tt w = (Ok tt, w') ->
  heap w' r = fold_left (apply_entry float_of_str) entries (heap w r).
Proof.
  revert w. induction entries as [|entry entries IH]; intros w H.
  - cbn in H. injection H as <-. reflexivity.
  - cbn [for_in] in H. unfold bind in H.
    pose proof (catalogue_entry_result r entry w) as R.
    pose proof (catalogue_entry_heap r entry w) as Hh.
    destruct (catalogue_entry float_of_str r tt entry w) as [[[]|e] w1];
      cbn [fst snd] in *; [|discriminate].
    destruct (entry_escape float_of_str entry); [discriminate|].
    cbn [fold_left]. rewrite <- Hh by reflexivity. now apply IH.
Qed.


Lemma last_valid_price_from (k : hkey) (entries : list value) (found : option float) :
  fold_left (fun found entry =>
               match entry_price float_of_str entry with
               | Some (k', p) => if hkey_eq_dec k' k then Some p else found
               | None => found
               end) entries found =
  match last_valid_price float_of_str k entries with
  | Some p => Some p
  | None => found
  end.
Proof.
  unfold last_valid_price. revert found.
  induction entries as [|entry entries IH]; intros found; cbn [fold_left].
  - reflexivity.
  - rewrite IH. rewrite (IH (match entry_price float_of_str entry with
                             | Some (k', p) => if hkey_eq_dec k' k then Some p else None
                             | None => None
                             end)).
    destruct (fold_left _ entries None); [reflexivity|].
    destruct (entry_price float_of_str entry) as [[k' p]|]; [|reflexivity].
    destruct (hkey_eq_dec k' k); reflexivity.
Qed.

Lemma last_valid_price_cons (k : hkey) (entry : value) (entries : list value) :
  last_valid_price float_of_str k (entry :: entries) =
  match last_valid_price float_of_str k entries with
  | Some p => Some p
  | None =>
      match entry_price float_of_str entry with
      | Some (k', p) => if hkey_eq_dec k' k then Some p else None
      | None => None
      end
  end.
Proof.
  unfold last_valid_price at 1. cbn [fold_left]. apply last_valid_price_from.
Qed.

Lemma pd_get_apply_entries (k : hkey) (entries : list value) (d : pdict) :
  pd_get k (fold_left (apply_entry float_of_str) entries d) =
  match last_valid_price float_of_str k entries with
  | Some p => Some p
  | None => pd_get k d
  end.
Proof.
  revert d. induction entries as [|entry entries IH]; intros d.
  - reflexivity.
  - cbn [fold_left]. rewrite IH, last_valid_price_cons.
    destruct (last_valid_price float_of_str k entries); [reflexivity|].
    unfold apply_entry.
    destruct (entry_price float_of_str entry) as [[k' p]|]; [|reflexivity].
    rewrite pd_get_set. destruct (hkey_eq_dec k' k); reflexivity.
Qed.

(** The mapping that [build_price_dict] returns holds, for every title, the
    price of the last valid entry of the catalogue that has the title. *)
Lemma build_price_dict_lookup (price_data : value) (w w' : world) (r : ref) :
  build_price_dict float_of_str price_data w = (Ok r, w') ->
  forall k, pd_get k (heap w' r) =
            last_valid_price float_of_str k (catalogue_entries price_data).
Proof.
  intros H k.
  assert (Hd : heap w' r =
               fold_left (apply_entry float_of_str) (catalogue_entries price_data) []).
  { unfold build_price_dict in H. unfold bind at 1 in H. cbn [new_dict] in H.
    set (w0 := set_heap _ _ w) in H.
    assert (H0 : heap w0 (next_ref w) = []) by apply heap_put_same.
    destruct price_data; cbn [catalogue_entries];
      try (cbn in H; injection H as <- <-; exact H0).
    - (* a sequence *)
      unfold bind in H.
      destruct (for_in _ items tt w0) as [[[]|e] w1] eqn:L; [|discriminate].
      cbn in H. injection H as <- <-.
      rewrite (catalogue_loop_ok _ _ _ _ L). now rewrite H0.
    - (* a single mapping *)
      pose proof (catalogue_entry_result (next_ref w) (VDict items) w0) as R.
      pose proof (catalogue_entry_heap (next_ref w) (VDict items) w0) as Hh.
      cbn [fold_left]. rewrite <- H0.
      unfold catalogue_entry, entry_escape in R, Hh.
      cbn [py_get] in H, R, Hh. unfold bind at 1 2 3 in H.
      unfold bind at 1 2 in R. unfold bind at 1 2 in Hh. cbn [lift] in H, R, Hh.
      destruct (is_none (items_get "title" items) || is_none (items_get "price" items)).
      { cbn in H. injection H as <- <-. exact (Hh eq_refl). }
      unfold bind, try_except, lift, dict_setitem in H, R, Hh.
      destruct (py_float float_of_str (items_get "price" items)) as [p|e].
      + cbn in H, R, Hh.
        destruct (key_of (items_get "title" items)); [|discriminate].
        cbn in H. injection H as <- <-. now apply Hh.
      + destruct (handled_by [ValueError] e); [|discriminate].
        cbn in H. injection H as <- <-. now apply Hh. }
  rewrite Hd, pd_get_apply_entries.
  now destruct (last_valid_price float_of_str k (catalogue_entries price_data)).
Qed.

End CatalogueBuilder.

Section CatalogueLookup.

Variable float_of_str : string -> option float.

Lemma last_valid_price_app (k : hkey) (xs ys : list value) :
  last_valid_price float_of_str k (xs ++ ys) =
  match last_valid_price float_of_str k ys with
  | Some p => Some p
  | None => last_valid_price float_of_str k xs
  end.
Proof.
  unfold last_valid_price at 1. rewrite fold_left_app.
  apply last_valid_price_from.
Qed.

Lemma last_valid_price_none (k : hkey) (entries : list value) :
  (forall entry p, In entry entries -> entry_price float_of_str entry <> Some (k, p)) ->
  last_valid_price float_of_str k entries = None.
Proof.
  induction entries as [|entry entries IH]; intros H.
  - reflexivity.
  - rewrite last_valid_price_cons, IH by (intros; apply H; now right).
    pose proof (H entry) as He.
    destruct (entry_price float_of_str entry) as [[k' p]|]; [|reflexivity].
    destruct (hkey_eq_dec k' k) as [->|]; [|reflexivity].
    exfalso. apply (He p); [now left | reflexivity].
Qed.

(** Every price found comes from a valid entry with that title. *)
Lemma last_valid_price_in (k : hkey) (entries : list value) (p : float) :
  last_valid_price float_of_str k entries = Some p ->
  exists entry, In entry entries /\ entry_price float_of_str entry = Some (k, p).
Proof.
  induction entries as [|entry entries IH].
  - discriminate.
  - rewrite last_valid_price_cons.
    destruct (last_valid_price float_of_str k entries) as [p'|].
    + intros [= ->]. destruct IH as (e & Hin & He); [reflexivity|].
      exists e. split; [now right | exact He].
    + destruct (entry_price float_of_str entry) as [[k' p']|] eqn:E; [|discriminate].
      destruct (hkey_eq_dec k' k) as [->|]; [|discriminate].
      intros [= ->]. exists entry. split; [now left | exact E].
Qed.

End CatalogueLookup.

(** ** Floating-point sums of numbers that are not negative *)

Lemma shr_1_nonneg (mrs : shr_record) : 0 <= shr_m mrs -> 0 <= shr_m (shr_1 mrs).
Proof.
  destruct mrs as [m r s]. cbn [shr_m]. intros H.
  destruct m as [|[p|p|]|p]; cbn; lia.
Qed.

Lemma iter_shr_1_nonneg (p : positive) (mrs : shr_record) :
  0 <= shr_m mrs -> 0 <= shr_m (iter_pos shr_1 p mrs).
Proof.
  revert mrs. induction p as [p IH|p IH|]; intros mrs H; cbn [iter_pos].
  - apply IH, IH, shr_1_nonneg, H.
  - apply IH, IH, H.
  - apply shr_1_nonneg, H.
Qed.

Lemma shr_fexp_nonneg (m e : Z) (l : location) :
  0 <= m -> 0 <= shr_m (fst (shr_fexp prec emax m e l)).
Proof.
  intros H. unfold shr_fexp, shr.
  assert (H0 : 0 <= shr_m (shr_record_of_loc m l)) by (destruct l as [|[]]; exact H).
  destruct (fexp prec emax (Zdigits2 m + e) - e); cbn [fst]; auto.
  apply iter_shr_1_nonneg, H0.
Qed.

Lemma round_nearest_even_nonneg (m : Z) (l : location) :
  0 <= m -> 0 <= round_nearest_even m l.
Proof.
  intros H. destruct l as [|[]]; cbn; try lia. destruct (Z.even m); lia.
Qed.

(** Rounding a mantissa that is not negative, with a positive sign, gives a
    zero, a positive number or [+infinity]. *)
Lemma binary_round_aux_nonneg (mx ex : Z) (lx : location) :
  0 <= mx -> sf_nonneg (binary_round_aux prec emax false mx ex lx).
Proof.
  intros H. unfold binary_round_aux.
  pose proof (shr_fexp_nonneg mx ex lx H) as H1.
  destruct (shr_fexp prec emax mx ex lx) as [mrs' e']. cbn [fst] in H1.
  pose proof (shr_fexp_nonneg _ e' loc_Exact
                (round_nearest_even_nonneg _ (loc_of_shr_record mrs') H1)) as H2.
  destruct (shr_fexp prec emax _ e' loc_Exact) as [mrs'' e'']. cbn [fst] in H2.
  destruct (shr_m mrs'') as [|m|m].
  - exact I.
  - destruct (e'' <=? emax - prec); reflexivity.
  - lia.
Qed.

Lemma SFmul_nonneg (x y : spec_float) :
  sf_nonneg x -> sf_nonneg y ->
  x <> S754_infinity false -> y <> S754_infinity false ->
  sf_nonneg (SFmul prec emax x y).
Proof.
  destruct x as [sx|sx| |sx mx ex], y as [sy|sy| |sy my ey]; cbn [sf_nonneg SFmul];
    intros Hx Hy Nx Ny; subst; try easy.
  apply binary_round_aux_nonneg. lia.
Qed.

Lemma SFadd_nonneg (x y : spec_float) :
  sf_nonneg x -> sf_nonneg y -> sf_nonneg (SFadd prec emax x y).
Proof.
  destruct x as [sx|sx| |sx mx ex], y as [sy|sy| |sy my ey]; cbn [sf_nonneg SFadd];
    intros Hx Hy; subst; try easy.
  - destruct sx, sy; exact I.
  - cbn [cond_Zopp]. unfold binary_normalize.
    cbn [Z.add]. unfold binary_round.
    destruct (shl_align _ _ _) as [mz ez].
    apply binary_round_aux_nonneg. lia.
Qed.

Lemma float_nonneg_spec (x : float) :
  (0 <=? x)%float = true <-> sf_nonneg (Prim2SF x).
Proof.
  rewrite leb_spec. change (Prim2SF 0) with (S754_zero false).
  destruct (Prim2SF x) as [s|s| |s m e]; cbn; try destruct s; intuition congruence.
Qed.

Lemma float_finite_spec (x : float) :
  (x <? infinity)%float = true -> Prim2SF x <> S754_infinity false.
Proof.
  rewrite ltb_spec. change (Prim2SF infinity) with (S754_infinity false).
  intros H E. rewrite E in H. discriminate.
Qed.

Lemma mul_nonneg (x y : float) :
  nonneg_finite x -> nonneg_finite y -> (0 <=? x * y)%float = true.
Proof.
  intros [Hx Fx] [Hy Fy]. apply float_nonneg_spec. rewrite mul_spec.
  apply SFmul_nonneg; auto using float_finite_spec; now apply float_nonneg_spec.
Qed.

Lemma add_nonneg (x y : float) :
  (0 <=? x)%float = true -> (0 <=? y)%float = true -> (0 <=? x + y)%float = true.
Proof.
  intros Hx Hy. apply float_nonneg_spec. rewrite add_spec.
  apply SFadd_nonneg; now apply float_nonneg_spec.
Qed.

Lemma float_sum_from_nonneg (costs : list float) (start : float) :
  (0 <=? start)%float = true ->
  Forall (fun c => (0 <=? c)%float = true) costs ->
  (0 <=? float_sum_from start costs)%float = true.
Proof.
  intros Hs Hc. revert start Hs.
  induction Hc as [|c costs Hc _ IH]; intros start Hs.
  - exact Hs.
  - cbn. apply IH, add_nonneg; assumption.
Qed.

Lemma sale_costs_nonneg (float_of_str : string -> option float) (pd : pdict)
    (sales : list value) :
  (forall k p, pd_get k pd = Some p -> nonneg_finite p) ->
  (forall items q, In (VDict items) sales ->
                   py_float float_of_str (items_get "Quantity" items) = Ok q ->
                   nonneg_finite q) ->
  Forall (fun c => (0 <=? c)%float = true) (sale_costs float_of_str pd sales).
Proof.
  intros Hp Hq. induction sales as [|sale sales IH].
  - constructor.
  - rewrite sale_costs_cons.
    assert (IH' : Forall (fun c => (0 <=? c)%float = true)
                         (sale_costs float_of_str pd sales)).
    { apply IH. intros items q Hin. apply Hq. now right. }
    destruct (sale_cost float_of_str pd sale) as [c|] eqn:E; [|exact IH'].
    constructor; [|exact IH'].
    unfold sale_cost in E. destruct sale; try discriminate.
    destruct (is_none (items_get "Product" items) || is_none (items_get "Quantity" items));
      [discriminate|].
    destruct (py_float float_of_str (items_get "Quantity" items)) as [q|] eqn:Q;
      [|discriminate].
    destruct (key_of (items_get "Product" items)) as [k|]; [|discriminate].
    destruct (pd_get k pd) as [p|] eqn:P; [|discriminate].
    injection E as <-. apply mul_nonneg; [now apply (Hp k) | apply (Hq items)]; auto.
    now left.
Qed.

(** * The claims *)

(** C1, on the input where the code departs from it: with the sales list
    [[{"Product": ["Widget"], "Quantity": 1}]] the record is not valid (its
    product is not a key of the mapping), yet [process_sales] neither counts
    it nor returns a total: the [TypeError] of [price_dict.get(product)]
    escapes, for every catalogue mapping, and nothing is printed. *)
Theorem process_sales_list_product_raises
    (float_of_str : string -> option float) (r : ref) (w : world) :
  sale_cost float_of_str (heap w r) (sale_of (VList [VStr "Widget"]) (VInt 1)) = None /\
  process_sales float_of_str r (VList sales_list_product) w = (Raise (raised TypeError), w).
Proof. split; reflexivity. Qed.

(** C2, on inputs where the code departs from it: after one rejected and
    counted record ([Gadget] is not in the catalogue), a record whose product
    is a mapping makes [process_sales] raise [TypeError], so that no
    [error_count] is returned; and a record whose quantity is the integer
    [10 ** 400], which is not coercible to a float, makes it raise
    [OverflowError] instead of being counted. *)
Theorem process_sales_error_count_lost (float_of_str : string -> option float) :
  (fst (process_sales float_of_str 0%nat (VList sales_unknown_then_dict_product)
          (world_with widget_prices [])) = Raise (raised TypeError) /\
   stdout (snd (process_sales float_of_str 0%nat (VList sales_unknown_then_dict_product)
                  (world_with widget_prices []))) = [MsgNoEncontrado (VStr "Gadget")]) /\
  fst (process_sales float_of_str 0%nat (VList sales_huge_quantity)
         (world_with widget_prices [])) = Raise (raised OverflowError).
Proof. repeat split; vm_compute; reflexivity. Qed.

(** C3, on inputs where the code departs from it: a catalogue sequence with
    an element that is not a mapping ([[5]]) makes [build_price_dict] raise
    [AttributeError], and an entry whose price is a list
    ([[{"title": "Widget", "price": [2.5]}]]) makes it raise [TypeError];
    in both cases no mapping is returned and nothing is logged. *)
Theorem build_price_dict_raises (float_of_str : string -> option float) (w : world) :
  (fst (build_price_dict float_of_str (VList [VInt 5]) w) = Raise (raised AttributeError) /\
   stdout (snd (build_price_dict float_of_str (VList [VInt 5]) w)) = stdout w) /\
  (fst (build_price_dict float_of_str
          (VList [entry_of (VStr "Widget") (VList [VFloat 2.5])]) w)
   = Raise (raised TypeError) /\
   stdout (snd (build_price_dict float_of_str
                  (VList [entry_of (VStr "Widget") (VList [VFloat 2.5])]) w)) = stdout w).
Proof. repeat split; reflexivity. Qed.

(** C4, on the input where the code departs from it: when reading the file
    raises [UnicodeDecodeError] (its bytes are not UTF-8), which is neither
    an [OSError] nor a [JSONDecodeError], [load_json_file] prints nothing and
    the exception reaches its caller. *)
Theorem load_json_file_propagates (filename : string) (w : world) :
  disk w filename = Raise (raised UnicodeDecodeError) ->
  load_json_file filename w = (Raise (raised UnicodeDecodeError), w).
Proof.
  intros H. unfold load_json_file, try_except, open_and_load. now rewrite H.
Qed.

(** C5: when the sales tree is not a sequence, [process_sales] prints the
    format message and returns exactly [(0.0, 0)], for every catalogue
    mapping. *)
Theorem process_sales_not_a_list
    (float_of_str : string -> option float) (r : ref) (sales_data : value) (w : world) :
  is_list sales_data = false ->
  fst (process_sales float_of_str r sales_data w) = Ok (0%float, O) /\
  stdout (snd (process_sales float_of_str r sales_data w)) = stdout w ++ [MsgVentasNoLista].
Proof.
  intros H. destruct sales_data; try discriminate; split; reflexivity.
Qed.

(** C6: in a catalogue sequence where a title appears in two valid entries
    [first] and [last], with no valid entry of that title after [last], the
    mapping that [build_price_dict] returns binds the title to the price of
    [last]. *)
Theorem build_price_dict_last_wins
    (float_of_str : string -> option float)
    (before between after : list value) (first last : value)
    (k : hkey) (p_first p_last : float) (w w' : world) (r : ref) :
  entry_price float_of_str first = Some (k, p_first) ->
  entry_price float_of_str last = Some (k, p_last) ->
  (forall entry p, In entry after -> entry_price float_of_str entry <> Some (k, p)) ->
  build_price_dict float_of_str
    (VList (before ++ first :: between ++ last :: after)) w = (Ok r, w') ->
  pd_get k (heap w' r) = Some p_last.
Proof.
  intros _ Hlast Hafter H.
  rewrite (build_price_dict_lookup float_of_str _ _ _ _ H). cbn [catalogue_entries].
  rewrite last_valid_price_app.
  change (first :: between ++ last :: after)
    with ((first :: between) ++ last :: after).
  rewrite last_valid_price_app, last_valid_price_cons.
  rewrite (last_valid_price_none float_of_str k after Hafter), Hlast.
  destruct (hkey_eq_dec k k); [reflexivity | contradiction].
Qed.

(** C7, as amended: for a sales list of valid records and any permutation of
    it, [process_sales] returns no error and, as total, the sum from the left
    of the costs [price * quantity] of the records in their order; the costs
    of the permuted list are a permutation of the costs of the list. *)
Theorem total_cost_sums_permuted_costs
    (float_of_str : string -> option float) (r : ref) (w : world)
    (sales sales' : list value) :
  Forall (fun sale => valid_sale float_of_str (heap w r) sale = true) sales ->
  Permutation sales sales' ->
  fst (process_sales float_of_str r (VList sales) w)
  = Ok (float_sum (sale_costs float_of_str (heap w r) sales), O) /\
  fst (process_sales float_of_str r (VList sales') w)
  = Ok (float_sum (sale_costs float_of_str (heap w r) sales'), O) /\
  Permutation (sale_costs float_of_str (heap w r) sales)
              (sale_costs float_of_str (heap w r) sales').
Proof.
  intros Hv Hp.
  assert (Hv' : Forall (fun sale => valid_sale float_of_str (heap w r) sale = true) sales')
    by (eapply Permutation_Forall; eassumption).
  assert (Hres : forall l,
             Forall (fun sale => valid_sale float_of_str (heap w r) sale = true) l ->
             fst (process_sales float_of_str r (VList l) w)
             = Ok (float_sum (sale_costs float_of_str (heap w r) l), O)).
  { intros l Hl. unfold process_sales.
    rewrite sales_loop_result, (rejected_all_valid float_of_str _ _ Hl); [reflexivity|].
    eapply Forall_impl; [|exact Hl]. intros sale. apply valid_sale_safe. }
  repeat split; auto.
  unfold sale_costs. now apply Permutation_flat_map.
Qed.

(** C8, as amended: when the price of every valid catalogue entry and every
    quantity that a sale record coerces to are finite and not negative, the
    total cost of the run is not negative. *)
Theorem total_cost_nonneg
    (float_of_str : string -> option float) (price_data sales_data : value)
    (w w' : world) (t : float) (n : nat) :
  (forall entry k p, In entry (catalogue_entries price_data) ->
                     entry_price float_of_str entry = Some (k, p) -> nonneg_finite p) ->
  (forall items q, In (VDict items) (sale_records sales_data) ->
                   py_float float_of_str (items_get "Quantity" items) = Ok q ->
                   nonneg_finite q) ->
  compute_sales float_of_str price_data sales_data w = (Ok (t, n), w') ->
  (0 <=? t)%float = true.
Proof.
  intros Hprice Hqty H. unfold compute_sales, bind in H.
  destruct (build_price_dict float_of_str price_data w) as [[r|e] w1] eqn:B;
    [|discriminate].
  assert (Ht : t = float_sum_from 0%float
                     (sale_costs float_of_str (heap w1 r) (sale_records sales_data))).
  { destruct sales_data; try (cbn in H; injection H as <- _ _; reflexivity).
    unfold process_sales in H.
    apply (f_equal fst) in H. cbn [fst] in H.
    now apply sales_loop_inv in H. }
  rewrite Ht. apply float_sum_from_nonneg; [reflexivity|].
  apply sale_costs_nonneg; [|exact Hqty].
  intros k p Hk.
  rewrite (build_price_dict_lookup float_of_str _ _ _ _ B) in Hk.
  apply last_valid_price_in in Hk. destruct Hk as (entry & Hin & He).
  now apply (Hprice entry k p).
Qed.

(** C9: when [sys.argv] does not hold exactly the program name and two
    paths, [main] prints the usage message and exits with status 1; no file
    is written. *)
Theorem main_wrong_argument_count (float_of_str : string -> option float) (w : world) :
  List.length (argv w) <> 3%nat ->
  fst (main float_of_str w) = Raise (Exn SystemExit 1) /\
  exit_status (fst (main float_of_str w)) = 1 /\
  stdout (snd (main float_of_str w)) = stdout w ++ [MsgUso] /\
  written (snd (main float_of_str w)) = written w.
Proof.
  intros H.
  assert (E : main float_of_str w
              = (Raise (Exn SystemExit 1), snd (print MsgUso (snd (time_time w))))).
  { unfold main. unfold bind at 1. cbn [time_time].
    unfold bind at 1. unfold bind at 1. cbn [len_sys_argv argv].
    destruct (Nat.eqb_spec (List.length (argv w)) 3) as [E|_]; [contradiction|].
    reflexivity. }
  rewrite E. repeat split; reflexivity.
Qed.

(** C10: [process_sales] leaves the catalogue mapping as it found it: after
    the call, whatever the sales input and whether it returns or raises, the
    dictionary object [price_dict], as every other one, holds what it held
    before. *)
Theorem process_sales_keeps_mapping
    (float_of_str : string -> option float) (r : ref) (sales_data : value) (w : world) :
  heap (snd (process_sales float_of_str r sales_data w)) r = heap w r /\
  heap (snd (process_sales float_of_str r sales_data w)) = heap w.
Proof.
  assert (H : heap (snd (process_sales float_of_str r sales_data w)) = heap w).
  { destruct sales_data; try reflexivity.
    apply (sales_loop_frame float_of_str r items (0%float, O) w). }
  split; [now rewrite H | exact H].
Qed.

(** ** The claims at concrete inputs *)

(** [load_json_file_propagates] on a disk where reading [ventas.json] raises
    [UnicodeDecodeError]. *)
Lemma load_json_file_propagates_witness :
  disk (world_on_disk (fun _ => Raise (raised UnicodeDecodeError))) "ventas.json"
  = Raise (raised UnicodeDecodeError) /\
  load_json_file "ventas.json" (world_on_disk (fun _ => Raise (raised UnicodeDecodeError)))
  = (Raise (raised UnicodeDecodeError),
     world_on_disk (fun _ => Raise (raised UnicodeDecodeError))).
Proof.
  split; [reflexivity | apply load_json_file_propagates; reflexivity].
Defined.

(** [process_sales_not_a_list] on the sales document [{}]. *)
Lemma process_sales_not_a_list_witness :
  is_list (VDict []) = false /\
  fst (process_sales no_numeral 0%nat (VDict []) (world_with widget_prices []))
  = Ok (0%float, O) /\
  stdout (snd (process_sales no_numeral 0%nat (VDict []) (world_with widget_prices [])))
  = [MsgVentasNoLista].
Proof.
  split; [reflexivity|].
  apply (process_sales_not_a_list no_numeral 0%nat (VDict []) (world_with widget_prices [])).
  reflexivity.
Defined.

(** [build_price_dict_last_wins] on the catalogue
    [[{"title": "Widget", "price": 2.5}, {"title": "Widget", "price": 4}]]:
    the mapping holds 4.0 for [Widget]. *)
Lemma build_price_dict_last_wins_witness :
  build_price_dict no_numeral (VList widget_twice) (world_with [] [])
  = (Ok 1%nat, snd (build_price_dict no_numeral (VList widget_twice) (world_with [] []))) /\
  pd_get (KStr "Widget")
    (heap (snd (build_price_dict no_numeral (VList widget_twice) (world_with [] []))) 1%nat)
  = Some 4%float.
Proof.
  split; [vm_compute; reflexivity|].
  apply (build_price_dict_last_wins no_numeral [] [] []
           (entry_of (VStr "Widget") (VFloat 2.5)) (entry_of (VStr "Widget") (VInt 4))
           (KStr "Widget") 2.5%float 4%float (world_with [] [])).
  - vm_compute; reflexivity.
  - vm_compute; reflexivity.
  - intros entry p [].
  - vm_compute; reflexivity.
Defined.

(** C7 as stated fails.  With the catalogue mapping
    [{"A": 9007199254740992.0, "B": 1.0}], the three valid records [A], [B],
    [B] (quantity 1 each) give the total 9007199254740992.0, each addition of
    1.0 being rounded away, and the same records in the order [B], [B], [A]
    give 9007199254740994.0. *)
Lemma total_cost_depends_on_order :
  Permutation sales_big_first sales_big_last /\
  (forall float_of_str,
      Forall (fun sale => valid_sale float_of_str big_and_small sale = true)
             sales_big_first) /\
  (forall float_of_str,
      fst (process_sales float_of_str 0%nat (VList sales_big_first)
             (world_with big_and_small []))
      = Ok (9007199254740992%float, O) /\
      fst (process_sales float_of_str 0%nat (VList sales_big_last)
             (world_with big_and_small []))
      = Ok (9007199254740994%float, O)) /\
  (9007199254740992 =? 9007199254740994)%float = false.
Proof.
  split; [|split; [|split]].
  - eapply perm_trans; [apply perm_swap | apply perm_skip, perm_swap].
  - intros float_of_str. repeat constructor.
  - intros float_of_str. split; vm_compute; reflexivity.
  - reflexivity.
Qed.

(** [total_cost_sums_permuted_costs] on the same catalogue and lists. *)
Lemma total_cost_sums_permuted_costs_witness :
  Forall (fun sale => valid_sale no_numeral big_and_small sale = true) sales_big_first /\
  Permutation sales_big_first sales_big_last /\
  fst (process_sales no_numeral 0%nat (VList sales_big_first) (world_with big_and_small []))
  = Ok (float_sum (sale_costs no_numeral big_and_small sales_big_first), O) /\
  fst (process_sales no_numeral 0%nat (VList sales_big_last) (world_with big_and_small []))
  = Ok (float_sum (sale_costs no_numeral big_and_small sales_big_last), O) /\
  Permutation (sale_costs no_numeral big_and_small sales_big_first)
              (sale_costs no_numeral big_and_small sales_big_last).
Proof.
  assert (Hv : Forall (fun sale => valid_sale no_numeral big_and_small sale = true)
                      sales_big_first) by (repeat constructor).
  assert (Hp : Permutation sales_big_first sales_big_last)
    by (eapply perm_trans; [apply perm_swap | apply perm_skip, perm_swap]).
  split; [exact Hv | split; [exact Hp|]].
  exact (total_cost_sums_permuted_costs no_numeral 0%nat (world_with big_and_small [])
           sales_big_first sales_big_last Hv Hp).
Defined.

(** C8 as stated fails.  With the catalogue
    [[{"title": "Widget", "price": 2.5}]] and the sales
    [[{"Product": "Widget", "Quantity": -3}]], the record is accepted and the
    total cost is -7.5.  And with the price [Infinity] and the quantity 0,
    neither of them negative, the total cost is [nan], which is not above
    or equal to 0.0. *)
Lemma total_cost_negative :
  ((forall float_of_str,
       fst (compute_sales float_of_str widget_catalogue (VList sales_negative_quantity)
              (world_with [] []))
       = Ok ((-7.5)%float, O)) /\
   (0 <=? -7.5)%float = false) /\
  ((forall float_of_str,
       fst (compute_sales float_of_str
              (VList [entry_of (VStr "Widget") (VFloat infinity)])
              (VList [sale_of (VStr "Widget") (VInt 0)])
              (world_with [] []))
       = Ok (nan, O)) /\
   (0 <=? nan)%float = false).
Proof.
  repeat split; try reflexivity; intros float_of_str; vm_compute; reflexivity.
Qed.

(** [total_cost_nonneg] on the same catalogue and the sales
    [[{"Product": "Widget", "Quantity": 3}]]: the total is 7.5. *)
Lemma total_cost_nonneg_witness :
  compute_sales no_numeral widget_catalogue (VList sales_three_widgets) (world_with [] [])
  = (Ok (7.5%float, O),
     snd (compute_sales no_numeral widget_catalogue (VList sales_three_widgets)
            (world_with [] []))) /\
  (0 <=? 7.5)%float = true.
Proof.
  split; [vm_compute; reflexivity|].
  apply (total_cost_nonneg no_numeral widget_catalogue (VList sales_three_widgets)
           (world_with [] [])
           (snd (compute_sales no_numeral widget_catalogue (VList sales_three_widgets)
                   (world_with [] [])))
           7.5%float O).
  - intros entry k p [<-|[]] E. vm_compute in E. injection E as <- <-.
    split; reflexivity.
  - intros items q [E|[]] Q. injection E as <-. vm_compute in Q. injection Q as <-.
    split; reflexivity.
  - vm_compute; reflexivity.
Defined.

(** [main_wrong_argument_count] on an invocation with one argument. *)
Lemma main_wrong_argument_count_witness :
  List.length (argv (world_with [] ["computeSales.py"; "priceCatalogue.json"])) <> 3%nat /\
  fst (main no_numeral (world_with [] ["computeSales.py"; "priceCatalogue.json"]))
  = Raise (Exn SystemExit 1) /\
  exit_status (fst (main no_numeral (world_with [] ["computeSales.py"; "priceCatalogue.json"])))
  = 1 /\
  stdout (snd (main no_numeral (world_with [] ["computeSales.py"; "priceCatalogue.json"])))
  = [MsgUso] /\
  written (snd (main no_numeral (world_with [] ["computeSales.py"; "priceCatalogue.json"])))
  = [].
Proof.
  split; [discriminate|].
  apply (main_wrong_argument_count no_numeral
           (world_with [] ["computeSales.py"; "priceCatalogue.json"])).
  discriminate.
Defined.

(** * Further properties of the program *)





(** X3: for every catalogue document on which [build_price_dict] returns, the
    mapping returned holds under each title the price of the last valid entry
    with that title, and nothing under any other title. *)
Theorem build_price_dict_holds_last_valid_prices
    (float_of_str : string -> option float) (price_data : value) (w w' : world)
    (r : ref) (k : hkey) :
  build_price_dict float_of_str price_data w = (Ok r, w') ->
  pd_get k (heap w' r) = last_valid_price float_of_str k (catalogue_entries price_data).
Proof.
  intros H. exact (build_price_dict_lookup float_of_str price_data w w' r H k).
Qed.

Lemma build_price_dict_holds_last_valid_prices_witness :
  build_price_dict no_numeral (entry_of (VStr "Widget") (VInt 4)) (world_with [] [])
  = (Ok 1%nat,
     snd (build_price_dict no_numeral (entry_of (VStr "Widget") (VInt 4)) (world_with [] []))) /\
  pd_get (KStr "Widget")
    (heap (snd (build_price_dict no_numeral (entry_of (VStr "Widget") (VInt 4))
                  (world_with [] []))) 1%nat)
  = Some 4%float.
Proof.
  split; [vm_compute; reflexivity|].
  apply (build_price_dict_holds_last_valid_prices no_numeral
           (entry_of (VStr "Widget") (VInt 4)) (world_with [] [])
           (snd (build_price_dict no_numeral (entry_of (VStr "Widget") (VInt 4))
                   (world_with [] [])))
           1%nat (KStr "Widget")).
  vm_compute; reflexivity.
Defined.



(** X5: when reading the file raises an [OSError] or a [JSONDecodeError],
    [load_json_file] prints the message naming the file and the exception,
    and returns [None]. *)
Theorem load_json_file_handled (filename : string) (e : exn) (w : world) :
  disk w filename = Raise e ->
  handled_by [OSError; JSONDecodeError] e = true ->
  fst (load_json_file filename w) = Ok VNone /\
  stdout (snd (load_json_file filename w)) = stdout w ++ [MsgErrorAlLeer filename e].
Proof.
  intros H He. unfold load_json_file, try_except, open_and_load.
  rewrite H, He. split; reflexivity.
Qed.

Lemma load_json_file_handled_witness :
  disk (world_with [] []) "ventas.json" = Raise (raised FileNotFoundError) /\
  handled_by [OSError; JSONDecodeError] (raised FileNotFoundError) = true /\
  fst (load_json_file "ventas.json" (world_with [] [])) = Ok VNone /\
  stdout (snd (load_json_file "ventas.json" (world_with [] [])))
  = [MsgErrorAlLeer "ventas.json" (raised FileNotFoundError)].
Proof.
  split; [reflexivity | split; [reflexivity|]].
  exact (load_json_file_handled "ventas.json" (raised FileNotFoundError)
           (world_with [] []) eq_refl eq_refl).
Defined.

(** X6: when the file is read and decoded, [load_json_file] returns the
    value and prints nothing. *)
Theorem load_json_file_ok (filename : string) (v : value) (w : world) :
  disk w filename = Ok v -> load_json_file filename w = (Ok v, w).
Proof.
  intros H. unfold load_json_file, try_except, open_and_load. now rewrite H.
Qed.

Lemma load_json_file_ok_witness :
  disk (world_on_disk (fun _ => Ok widget_catalogue)) "catalogo.json" = Ok widget_catalogue /\
  load_json_file "catalogo.json" (world_on_disk (fun _ => Ok widget_catalogue))
  = (Ok widget_catalogue, world_on_disk (fun _ => Ok widget_catalogue)).
Proof.
  split; [reflexivity | apply load_json_file_ok; reflexivity].
Defined.

(** X7: when the run returns, its error count is the number of sale records
    that are not valid against the mapping built from the catalogue, and its
    total the sum of the costs of the valid ones: the entries that the
    catalogue builder rejects are not counted. *)
Theorem compute_sales_counts_sale_records
    (float_of_str : string -> option float) (price_data sales_data : value)
    (w w' : world) (t : float) (n : nat) :
  compute_sales float_of_str price_data sales_data w = (Ok (t, n), w') ->
  exists r w1,
    build_price_dict float_of_str price_data w = (Ok r, w1) /\
    t = float_sum (sale_costs float_of_str (heap w1 r) (sale_records sales_data)) /\
    n = rejected float_of_str (heap w1 r) (sale_records sales_data) /\
    (n <= List.length (sale_records sales_data))%nat.
Proof.
  intros H. unfold compute_sales, bind in H.
  destruct (build_price_dict float_of_str price_data w) as [[r|e] w1] eqn:B;
    [|discriminate].
  exists r, w1. split; [reflexivity|].
  assert (Hn : forall pd l, (rejected float_of_str pd l <= List.length l)%nat)
    by (intros pd l; apply filter_length_le).
  destruct sales_data;
    try (cbn in H; injection H as <- <- _; repeat split; cbn; lia).
  unfold process_sales in H. apply (f_equal fst) in H. cbn [fst] in H.
  apply sales_loop_inv in H. destruct H as (_ & -> & ->).
  cbn [sale_records]. repeat split. apply Hn.
Qed.

Lemma compute_sales_counts_sale_records_witness :
  compute_sales no_numeral
    (VList [entry_of (VStr "Widget") (VFloat 2.5); entry_of (VStr "Gadget") (VStr "free")])
    (VList [sale_of (VStr "Widget") (VInt 3); sale_of (VStr "Gadget") (VInt 2)])
    (world_with [] [])
  = (Ok (7.5%float, 1%nat),
     snd (compute_sales no_numeral
            (VList [entry_of (VStr "Widget") (VFloat 2.5);
                    entry_of (VStr "Gadget") (VStr "free")])
            (VList [sale_of (VStr "Widget") (VInt 3); sale_of (VStr "Gadget") (VInt 2)])
            (world_with [] []))) /\
  (1 <= 2)%nat.
Proof.
  split; [vm_compute; reflexivity|].
  destruct (compute_sales_counts_sale_records no_numeral
              (VList [entry_of (VStr "Widget") (VFloat 2.5);
                      entry_of (VStr "Gadget") (VStr "free")])
              (VList [sale_of (VStr "Widget") (VInt 3); sale_of (VStr "Gadget") (VInt 2)])
              (world_with [] []) _ 7.5%float 1%nat ltac:(vm_compute; reflexivity))
    as (r & w1 & _ & _ & _ & H).
  exact H.
Defined.

(** An empty sales list yields the total 0.0 and no error, and prints
    nothing. *)
Theorem process_sales_empty
    (float_of_str : string -> option float) (r : ref) (w : world) :
  process_sales float_of_str r (VList []) w = (Ok (0%float, O), w).
Proof. reflexivity. Qed.

(** Scenario A: with the catalogue [[{"title": "Widget", "price": "9.99"}]]
    and the sales [[{"Product": "Widget", "Quantity": 3}]], the total is the
    price read from ["9.99"] times 3.0, added to 0.0, and there is no error. *)
Theorem scenario_string_price (float_of_str : string -> option float) (p : float) :
  float_of_str "9.99" = Some p ->
  fst (compute_sales float_of_str
         (VList [entry_of (VStr "Widget") (VStr "9.99")])
         (VList sales_three_widgets) (world_with [] []))
  = Ok ((0 + p * 3)%float, O).
Proof.
  intros H. unfold compute_sales, build_price_dict, bind. cbn [new_dict for_in].
  unfold catalogue_entry, bind, try_except, lift. cbn [py_get entry_of items_get].
  cbn [String.eqb Ascii.eqb Bool.eqb is_none orb py_float]. rewrite H.
  vm_compute. reflexivity.
Qed.

Lemma scenario_string_price_witness :
  reads_9_99 "9.99" = Some 0x1.3fae147ae147bp+3%float /\
  fst (compute_sales reads_9_99
         (VList [entry_of (VStr "Widget") (VStr "9.99")])
         (VList sales_three_widgets) (world_with [] []))
  = Ok (0x1.df851eb851eb8p+4%float, O).
Proof.
  split; [reflexivity|].
  exact (scenario_string_price reads_9_99 0x1.3fae147ae147bp+3%float eq_refl).
Defined.

(** Scenario C: a sale record whose quantity is a string that is not a
    numeral is skipped: the message naming the product is printed, the error
    count is 1 and the total stays 0.0. *)
Theorem scenario_quantity_not_numeric
    (float_of_str : string -> option float) (r : ref) (w : world) :
  float_of_str "abc" = None ->
  fst (process_sales float_of_str r (VList [sale_of (VStr "Widget") (VStr "abc")]) w)
  = Ok (0%float, 1%nat) /\
  stdout (snd (process_sales float_of_str r
                 (VList [sale_of (VStr "Widget") (VStr "abc")]) w))
  = stdout w ++ [MsgCantidadInvalida (VStr "Widget")].
Proof.
  intros H. unfold process_sales. cbn [for_in].
  unfold sale_record, bind, try_except, lift.
  cbn [is_dict sale_of negb py_get items_get].
  cbn [String.eqb Ascii.eqb Bool.eqb is_none orb py_float]. rewrite H.
  split; reflexivity.
Qed.

Lemma scenario_quantity_not_numeric_witness :
  reads_9_99 "abc" = None /\
  fst (process_sales reads_9_99 0%nat (VList [sale_of (VStr "Widget") (VStr "abc")])
         (world_with widget_prices []))
  = Ok (0%float, 1%nat) /\
  stdout (snd (process_sales reads_9_99 0%nat
                 (VList [sale_of (VStr "Widget") (VStr "abc")])
                 (world_with widget_prices [])))
  = [MsgCantidadInvalida (VStr "Widget")].
Proof.
  split; [reflexivity|].
  exact (scenario_quantity_not_numeric reads_9_99 0%nat (world_with widget_prices [])
           eq_refl).
Defined.

(** * The rest of the program *)

(** ** Relations that computations keep *)

Section Keeps.

Variable R : world -> world -> Prop.
Hypothesis R_refl : forall w, R w w.
Hypothesis R_trans : forall a b c, R a b -> R b c -> R a c.

Lemma keeps_ret {A} (a : A) : keeps R (ret a).
Proof. intros w. apply R_refl. Qed.

Lemma keeps_raise {A} (e : exn) : keeps R (@raise A e).
Proof. intros w. apply R_refl. Qed.

Lemma keeps_lift {A} (r : result A) : keeps R (lift r).
Proof. intros w. apply R_refl. Qed.

Lemma keeps_bind {A B} (m : M A) (f : A -> M B) :
  keeps R m -> (forall a, keeps R (f a)) -> keeps R (bind m f).
Proof.
  intros Hm Hf w. unfold bind. specialize (Hm w).
  destruct (m w) as [[a|e] w1]; cbn [snd] in *.
  - eapply R_trans; [exact Hm | apply Hf].
  - exact Hm.
Qed.

Lemma keeps_try_except {A} (body : M A) (classes : list exn_class)
    (handler : exn -> M A) :
  keeps R body -> (forall e, keeps R (handler e)) ->
  keeps R (try_except body classes handler).
Proof.
  intros Hb Hh w. unfold try_except. specialize (Hb w).
  destruct (body w) as [[a|e] w1]; cbn [snd] in *; [exact Hb|].
  destruct (handled_by classes e); [|exact Hb].
  eapply R_trans; [exact Hb | apply Hh].
Qed.

Lemma keeps_for_in {A S} (body : S -> A -> M S) (xs : list A) (acc : S) :
  (forall s a, keeps R (body s a)) -> keeps R (for_in body xs acc).
Proof.
  intros Hb. revert acc. induction xs as [|x xs IH]; intros acc; cbn [for_in].
  - apply keeps_ret.
  - apply keeps_bind; [apply Hb | exact IH].
Qed.

End Keeps.

(** The steps that follow the structure of a computation; [prim] closes
    the primitive ones. *)
Ltac keeps_steps refl trans prim :=
  repeat first
    [ apply (keeps_ret _ refl)
    | apply (keeps_raise _ refl)
    | apply (keeps_lift _ refl)
    | apply (keeps_bind _ trans); [|intros ?]
    | apply (keeps_try_except _ trans); [|intros ?]
    | apply (keeps_for_in _ refl trans); intros ? ?
    | prim
    | match goal with
      | |- keeps _ (if ?b then _ else _) => destruct b
      | |- keeps _ (match ?x with _ => _ end) => destruct x
      end ].

Lemma env_kept_refl (w : world) : env_kept w w.
Proof. repeat split. Qed.

Lemma env_kept_trans (a b c : world) : env_kept a b -> env_kept b c -> env_kept a c.
Proof.
  unfold env_kept. intros (A1 & A2 & A3 & A4 & A5 & A6) (B1 & B2 & B3 & B4 & B5 & B6).
  repeat split; congruence.
Qed.

Ltac env_prim :=
  idtac;
  match goal with
  | |- keeps env_kept (print _) => intros ?; repeat split
  | |- keeps env_kept new_dict => intros ?; repeat split
  | |- keeps env_kept (dict_setitem _ ?k _) =>
      intros ?; unfold dict_setitem; destruct (key_of k); repeat split
  | |- keeps env_kept (dict_get _ ?k) =>
      intros ?; unfold dict_get; destruct (key_of k); repeat split
  | |- keeps env_kept (open_and_load _) => intros ?; repeat split
  end.

Ltac env_steps := keeps_steps env_kept_refl env_kept_trans env_prim.

Section Frames.

Variable float_of_str : string -> option float.

(** [load_json_file] only prints. *)
Lemma load_json_file_spec (filename : string) (w : world) :
  load_json_file filename w
  = (load_result w filename, log_lines (load_log w filename) w).
Proof.
  unfold load_json_file, try_except, open_and_load, load_result, load_log, log_lines.
  destruct (disk w filename) as [v|e].
  - rewrite app_nil_r. now destruct w.
  - destruct (handled_by [OSError; JSONDecodeError] e); cbn.
    + reflexivity.
    + rewrite app_nil_r. now destruct w.
Qed.

Lemma catalogue_entry_env (r : ref) (entry : value) :
  keeps env_kept (catalogue_entry float_of_str r tt entry).
Proof. unfold catalogue_entry. env_steps. Qed.

Lemma build_price_dict_env (price_data : value) :
  keeps env_kept (build_price_dict float_of_str price_data).
Proof. unfold build_price_dict, catalogue_entry. env_steps. Qed.

Lemma process_sales_env (r : ref) (sales_data : value) :
  keeps env_kept (process_sales float_of_str r sales_data).
Proof. unfold process_sales, sale_record. env_steps. Qed.

Lemma compute_sales_env (price_data sales_data : value) :
  keeps env_kept (compute_sales float_of_str price_data sales_data).
Proof.
  unfold compute_sales.
  apply (keeps_bind _ env_kept_trans); [apply build_price_dict_env|].
  intros r. apply process_sales_env.
Qed.

End Frames.

Lemma log_lines_nil (w : world) : log_lines [] w = w.
Proof. unfold log_lines. rewrite app_nil_r. now destruct w. Qed.

Lemma log_lines_app (a b : list message) (w : world) :
  log_lines b (log_lines a w) = log_lines (a ++ b) w.
Proof. unfold log_lines. cbn. now rewrite app_assoc. Qed.

(** ** More on the sales processor *)

Section SalesLog.

Variable float_of_str : string -> option float.

(** A record that lets no exception escape prints its line of rejection, if
    it is rejected, and does nothing else to the world. *)
Lemma sale_record_world (r : ref) (acc : float * nat) (sale : value) (w : world) :
  sale_escape float_of_str sale = None ->
  snd (sale_record float_of_str r acc sale w)
  = log_lines (match sale_message float_of_str (heap w r) sale with
               | Some m => [m]
               | None => []
               end) w.
Proof.
  destruct acc as [t n].
  destruct sale; try (intros _; reflexivity).
  unfold sale_record, sale_escape, sale_message.
  cbn [is_dict negb py_get]. unfold bind at 1 2. cbn [lift].
  destruct (is_none (items_get "Product" items) || is_none (items_get "Quantity" items));
    [intros _; reflexivity|].
  unfold bind, try_except, lift, dict_get.
  destruct (py_float float_of_str (items_get "Quantity" items)) as [q|e].
  - cbn. destruct (key_of (items_get "Product" items)) as [k|]; [|discriminate].
    intros _. destruct (pd_get k (heap w r)); cbn; [|reflexivity].
    symmetry. apply log_lines_nil.
  - destruct (handled_by [ValueError; TypeError] e); [|discriminate].
    intros _. reflexivity.
Qed.

Lemma sales_loop_world (r : ref) (sales : list value) (acc : float * nat) (w : world) :
  Forall (fun sale => sale_escape float_of_str sale = None) sales ->
  snd (for_in (sale_record float_of_str r) sales acc w)
  = log_lines (sale_log float_of_str (heap w r) sales) w.
Proof.
  intros Hsafe. revert acc w.
  induction Hsafe as [|sale sales Hs _ IH]; intros [t n] w.
  - cbn. symmetry. apply log_lines_nil.
  - cbn [for_in]. unfold bind.
    pose proof (sale_record_result float_of_str r t n sale w) as R.
    pose proof (sale_record_world r (t, n) sale w Hs) as W.
    rewrite Hs in R.
    destruct (sale_record float_of_str r (t, n) sale w) as [[acc'|e] w1];
      cbn [fst snd] in *.
    + rewrite IH, W. cbn [heap log_lines]. rewrite log_lines_app. reflexivity.
    + destruct (sale_cost float_of_str (heap w r) sale); discriminate.
Qed.

(** A record that lets no exception escape is rejected with one line, or
    valid with none. *)
Lemma sale_message_valid (pd : pdict) (sale : value) :
  sale_escape float_of_str sale = None ->
  sale_message float_of_str pd sale = None <-> valid_sale float_of_str pd sale = true.
Proof.
  unfold sale_escape, sale_message, valid_sale, sale_cost.
  destruct sale; try (intros _; split; discriminate).
  destruct (is_none (items_get "Product" items) || is_none (items_get "Quantity" items));
    [intros _; split; discriminate|].
  destruct (py_float float_of_str (items_get "Quantity" items)) as [q|e].
  - destruct (key_of (items_get "Product" items)) as [k|]; [|discriminate].
    intros _. destruct (pd_get k pd); split; intros; congruence.
  - intros _. split; discriminate.
Qed.

Lemma sale_log_length (pd : pdict) (sales : list value) :
  Forall (fun sale => sale_escape float_of_str sale = None) sales ->
  List.length (sale_log float_of_str pd sales) = rejected float_of_str pd sales.
Proof.
  induction 1 as [|sale sales Hs _ IH].
  - reflexivity.
  - rewrite rejected_cons. unfold sale_log in *. cbn [flat_map].
    rewrite length_app, IH.
    pose proof (sale_message_valid pd sale Hs) as V. unfold valid_sale in V.
    destruct (sale_message float_of_str pd sale) as [m|],
             (sale_cost float_of_str pd sale) as [c|]; cbn; try reflexivity.
    + destruct V as [_ V]. now specialize (V eq_refl).
    + destruct V as [V _]. now specialize (V eq_refl).
Qed.



Lemma rejected_permutation (pd : pdict) (sales sales' : list value) :
  Permutation sales sales' ->
  rejected float_of_str pd sales = rejected float_of_str pd sales'.
Proof.
  induction 1 as [|x l l' _ IH|x y l|l l' l'' _ IH1 _ IH2].
  - reflexivity.
  - rewrite !rejected_cons, IH. reflexivity.
  - rewrite !rejected_cons.
    destruct (sale_cost float_of_str pd x), (sale_cost float_of_str pd y); reflexivity.
  - congruence.
Qed.

Lemma sale_costs_length (pd : pdict) (sales : list value) :
  (rejected float_of_str pd sales + List.length (sale_costs float_of_str pd sales)
   = List.length sales)%nat.
Proof.
  induction sales as [|sale sales IH].
  - reflexivity.
  - rewrite rejected_cons, sale_costs_cons.
    destruct (sale_cost float_of_str pd sale); cbn [List.length]; lia.
Qed.

Lemma sale_costs_valid_only (pd : pdict) (sales : list value) :
  sale_costs float_of_str pd (filter (valid_sale float_of_str pd) sales)
  = sale_costs float_of_str pd sales.
Proof.
  induction sales as [|sale sales IH].
  - reflexivity.
  - cbn [filter]. unfold valid_sale at 1.
    destruct (sale_cost float_of_str pd sale) as [c|] eqn:E.
    + rewrite !sale_costs_cons, E, IH. reflexivity.
    + rewrite sale_costs_cons, E, IH. reflexivity.
Qed.

End SalesLog.

(** ** More on the catalogue builder *)

Lemma pd_set_keys (k x : hkey) (p : float) (d : pdict) :
  In x (map fst (pd_set k p d)) <-> x = k \/ In x (map fst d).
Proof.
  induction d as [|[k0 p0] d IH]; cbn.
  - intuition.
  - destruct (hkey_eq_dec k0 k) as [->|N]; cbn; [intuition|].
    rewrite IH. intuition.
Qed.

Lemma pd_set_NoDup (k : hkey) (p : float) (d : pdict) :
  NoDup (map fst d) -> NoDup (map fst (pd_set k p d)).
Proof.
  induction d as [|[k0 p0] d IH]; cbn; intros H.
  - constructor; [intros [] | constructor].
  - inversion H as [|? ? Hnot Hrest]; subst.
    destruct (hkey_eq_dec k0 k) as [->|N]; cbn.
    + now constructor.
    + constructor; [|now apply IH].
      rewrite pd_set_keys. intros [->|Hin]; [now apply N | now apply Hnot].
Qed.

Lemma pd_set_length (k : hkey) (p : float) (d : pdict) :
  (List.length (pd_set k p d) <= S (List.length d))%nat.
Proof.
  induction d as [|[k0 p0] d IH]; cbn; [lia|].
  destruct (hkey_eq_dec k0 k); cbn; lia.
Qed.

Section CatalogueContents.

Variable float_of_str : string -> option float.

Lemma apply_entries_NoDup (entries : list value) (d : pdict) :
  NoDup (map fst d) ->
  NoDup (map fst (fold_left (apply_entry float_of_str) entries d)).
Proof.
  revert d. induction entries as [|entry entries IH]; intros d H; cbn [fold_left].
  - exact H.
  - apply IH. unfold apply_entry.
    destruct (entry_price float_of_str entry) as [[k p]|]; [|exact H].
    now apply pd_set_NoDup.
Qed.

Lemma apply_entries_length (entries : list value) (d : pdict) :
  (List.length (fold_left (apply_entry float_of_str) entries d)
   <= List.length d + List.length entries)%nat.
Proof.
  revert d. induction entries as [|entry entries IH]; intros d; cbn [fold_left List.length].
  - lia.
  - etransitivity; [apply IH|]. unfold apply_entry.
    destruct (entry_price float_of_str entry) as [[k p]|]; [|lia].
    pose proof (pd_set_length k p d). lia.
Qed.

(** What the returned reference holds. *)
Lemma build_price_dict_contents (price_data : value) (w w' : world) (r : ref) :
  build_price_dict float_of_str price_data w = (Ok r, w') ->
  r = next_ref w /\ heap w' r = catalogue_mapping float_of_str price_data.
Proof.
  intros H. unfold catalogue_mapping.
  unfold build_price_dict in H. unfold bind at 1 in H. cbn [new_dict] in H.
  set (w0 := set_heap _ _ w) in H.
  assert (H0 : heap w0 (next_ref w) = []) by apply heap_put_same.
  destruct price_data; cbn [catalogue_entries];
    try (cbn in H; injection H as <- <-; split; [reflexivity | exact H0]).
  - unfold bind in H.
    destruct (for_in _ items tt w0) as [[[]|e] w1] eqn:L; [|discriminate].
    cbn in H. injection H as <- <-. split; [reflexivity|].
    rewrite (catalogue_loop_ok float_of_str _ _ _ _ L). now rewrite H0.
  - pose proof (catalogue_entry_heap float_of_str (next_ref w) (VDict items) w0) as Hh.
    cbn [fold_left]. rewrite <- H0.
    unfold catalogue_entry, entry_escape in Hh.
    cbn [py_get] in H, Hh. unfold bind at 1 2 3 in H.
    unfold bind at 1 2 in Hh. cbn [lift] in H, Hh.
    destruct (is_none (items_get "title" items) || is_none (items_get "price" items)).
    { cbn in H. injection H as <- <-. split; [reflexivity | exact (Hh eq_refl)]. }
    unfold bind, try_except, lift, dict_setitem in H, Hh.
    destruct (py_float float_of_str (items_get "price" items)) as [p|e].
    + cbn in H, Hh.
      destruct (key_of (items_get "title" items)); [|discriminate].
      cbn in H. injection H as <- <-. split; [reflexivity | now apply Hh].
    + destruct (handled_by [ValueError] e); [|discriminate].
      cbn in H. injection H as <- <-. split; [reflexivity | now apply Hh].
Qed.

Lemma catalogue_entry_stdout (r : ref) (entry : value) (w : world) :
  entry_escape float_of_str entry = None ->
  stdout (snd (catalogue_entry float_of_str r tt entry w))
  = stdout w ++ match entry_message float_of_str entry with
                | Some m => [m]
                | None => []
                end.
Proof.
  destruct entry; try discriminate.
  unfold catalogue_entry, entry_escape, entry_message.
  cbn [py_get]. unfold bind at 1 2. cbn [lift].
  destruct (is_none (items_get "title" items) || is_none (items_get "price" items));
    [reflexivity|].
  unfold bind, try_except, lift, dict_setitem.
  destruct (py_float float_of_str (items_get "price" items)) as [p|e].
  - cbn. destruct (key_of (items_get "title" items)); [|discriminate].
    intros _. cbn. now rewrite app_nil_r.
  - destruct (handled_by [ValueError] e); [reflexivity | discriminate].
Qed.

Lemma catalogue_loop_stdout (r : ref) (entries : list value) (w w' : world) :
  for_in (catalogue_entry float_of_str r) entries tt w = (Ok tt, w') ->
  stdout w' = stdout w ++ catalogue_log float_of_str (VList entries).
Proof.
  revert w. induction entries as [|entry entries IH]; intros w H.
  - cbn in H. injection H as <-. cbn. now rewrite app_nil_r.
  - cbn [for_in] in H. unfold bind in H.
    pose proof (catalogue_entry_result float_of_str r entry w) as R.
    pose proof (catalogue_entry_stdout r entry w) as S.
    destruct (catalogue_entry float_of_str r tt entry w) as [[[]|e] w1];
      cbn [fst snd] in *; [|discriminate].
    destruct (entry_escape float_of_str entry); [discriminate|].
    rewrite (IH _ H), S by reflexivity.
    cbn [catalogue_log flat_map]. now rewrite app_assoc.
Qed.

End CatalogueContents.

(** ** Further properties of the sales processor *)

(** X8: when [process_sales] returns, it has printed one line for each
    record that it counted as an error, in the order of the records, and has
    changed nothing else: no dictionary, no file, no reading of the clock. *)
Theorem process_sales_logs_rejections
    (float_of_str : string -> option float)
    (r : ref) (sales : list value) (w : world) (t : float) (n : nat) :
  fst (process_sales float_of_str r (VList sales) w) = Ok (t, n) ->
  snd (process_sales float_of_str r (VList sales) w)
  = log_lines (sale_log float_of_str (heap w r) sales) w /\
  List.length (sale_log float_of_str (heap w r) sales) = n.
Proof.
  intros H. unfold process_sales in *.
  apply sales_loop_inv in H. destruct H as (Hsafe & _ & ->).
  split; [now apply sales_loop_world | now apply sale_log_length].
Qed.

Lemma process_sales_logs_rejections_witness :
  stdout (snd (process_sales no_numeral 0%nat (VList sales_mixed)
                 (world_with widget_prices [])))
  = [MsgNoEncontrado (VStr "Gadget"); MsgRegistroInvalido;
     MsgCantidadInvalida (VStr "Widget")].
Proof.
  destruct (process_sales_logs_rejections no_numeral 0%nat sales_mixed
              (world_with widget_prices []) 7.5%float 3%nat
              ltac:(vm_compute; reflexivity)) as [H _].
  rewrite H. reflexivity.
Defined.



(** X10: the error count does not depend on the order of the records: when
    [process_sales] returns for a list, it returns for every permutation of
    it, with the same error count. *)
Theorem process_sales_error_count_permutation
    (float_of_str : string -> option float)
    (r : ref) (sales sales' : list value) (w : world) (t : float) (n : nat) :
  fst (process_sales float_of_str r (VList sales) w) = Ok (t, n) ->
  Permutation sales sales' ->
  exists t', fst (process_sales float_of_str r (VList sales') w) = Ok (t', n).
Proof.
  intros H Hp. unfold process_sales in *.
  apply sales_loop_inv in H. destruct H as (Hsafe & _ & ->).
  eexists. rewrite sales_loop_result by (eapply Permutation_Forall; eassumption).
  now rewrite (rejected_permutation float_of_str _ _ _ Hp).
Qed.

Lemma process_sales_error_count_permutation_witness :
  exists t', fst (process_sales no_numeral 0%nat (VList (rev sales_mixed))
                    (world_with widget_prices []))
             = Ok (t', 3%nat).
Proof.
  apply (process_sales_error_count_permutation no_numeral 0%nat sales_mixed
           (rev sales_mixed) (world_with widget_prices []) 7.5%float 3%nat).
  - vm_compute; reflexivity.
  - apply Permutation_rev.
Defined.

(** X11: the rejected records do not touch the total: when [process_sales]
    returns for a list, it returns the same total, and no error, for the list
    of its valid records alone. *)
Theorem process_sales_valid_records_only
    (float_of_str : string -> option float)
    (r : ref) (sales : list value) (w : world) (t : float) (n : nat) :
  fst (process_sales float_of_str r (VList sales) w) = Ok (t, n) ->
  fst (process_sales float_of_str r
         (VList (filter (valid_sale float_of_str (heap w r)) sales)) w)
  = Ok (t, O).
Proof.
  intros H. unfold process_sales in *.
  apply sales_loop_inv in H. destruct H as (Hsafe & -> & _).
  assert (Hv : Forall (fun sale => valid_sale float_of_str (heap w r) sale = true)
                      (filter (valid_sale float_of_str (heap w r)) sales)).
  { apply Forall_forall. intros sale Hin. now apply filter_In in Hin. }
  rewrite sales_loop_result.
  - now rewrite sale_costs_valid_only, (rejected_all_valid float_of_str _ _ Hv).
  - eapply Forall_impl; [|exact Hv]. intros sale. apply valid_sale_safe.
Qed.

Lemma process_sales_valid_records_only_witness :
  fst (process_sales no_numeral 0%nat
         (VList (filter (valid_sale no_numeral widget_prices) sales_mixed))
         (world_with widget_prices []))
  = Ok (7.5%float, O).
Proof.
  apply (process_sales_valid_records_only no_numeral 0%nat sales_mixed
           (world_with widget_prices []) 7.5%float 3%nat).
  vm_compute; reflexivity.
Defined.

(** ** The catalogue builder and the objects around it *)

Lemma others_kept_refl (d : ref) (w : world) : others_kept d w w.
Proof. intros r _. reflexivity. Qed.

Lemma others_kept_trans (d : ref) (a b c : world) :
  others_kept d a b -> others_kept d b c -> others_kept d a c.
Proof. intros H1 H2 r Hr. rewrite (H2 r Hr). now apply H1. Qed.

Lemma refs_kept_refl (w : world) : refs_kept w w.
Proof. reflexivity. Qed.

Lemma refs_kept_trans (a b c : world) : refs_kept a b -> refs_kept b c -> refs_kept a c.
Proof. unfold refs_kept. congruence. Qed.

Lemma heap_put_other (r d : ref) (pd : pdict) (h : ref -> pdict) :
  r <> d -> heap_put d pd h r = h r.
Proof.
  intros H. unfold heap_put. destruct (Nat.eqb_spec r d); [contradiction | reflexivity].
Qed.

Ltac others_prim :=
  idtac;
  match goal with
  | |- keeps (others_kept _) (print _) => intros ? ? ?; reflexivity
  | |- keeps (others_kept ?d) (dict_setitem ?d ?k _) =>
      intros ? ? ?; unfold dict_setitem; destruct (key_of k); cbn;
      [now apply heap_put_other | reflexivity]
  end.

Ltac refs_prim :=
  idtac;
  match goal with
  | |- keeps refs_kept (print _) => intros ?; reflexivity
  | |- keeps refs_kept (dict_setitem _ ?k _) =>
      intros ?; unfold dict_setitem; destruct (key_of k); reflexivity
  | |- keeps refs_kept (dict_get _ ?k) =>
      intros ?; unfold dict_get; destruct (key_of k); reflexivity
  end.

Lemma bind_new_dict {A} (f : ref -> M A) (w : world) :
  bind new_dict f w = f (next_ref w) (snd (new_dict w)).
Proof. reflexivity. Qed.

Section BuilderFrame.

Variable float_of_str : string -> option float.

(** X12: [build_price_dict] creates exactly one dictionary object, the one
    it returns, and leaves every other dictionary object and the environment
    of the process as they were, whether it returns or raises. *)
Theorem build_price_dict_fresh (price_data : value) (w : world) :
  next_ref (snd (build_price_dict float_of_str price_data w)) = S (next_ref w) /\
  (forall r, r <> next_ref w ->
             heap (snd (build_price_dict float_of_str price_data w)) r = heap w r) /\
  (forall r, fst (build_price_dict float_of_str price_data w) = Ok r -> r = next_ref w) /\
  env_kept w (snd (build_price_dict float_of_str price_data w)).
Proof.
  split; [|split; [|split]].
  - unfold build_price_dict. rewrite bind_new_dict.
    match goal with
    | |- next_ref (snd (?m (snd (new_dict w)))) = _ =>
        assert (K : keeps refs_kept m)
    end.
    { unfold catalogue_entry.
      keeps_steps refs_kept_refl refs_kept_trans refs_prim. }
    rewrite (K (snd (new_dict w))). reflexivity.
  - intros r Hr. unfold build_price_dict. rewrite bind_new_dict.
    match goal with
    | |- heap (snd (?m (snd (new_dict w)))) r = _ =>
        assert (K : keeps (others_kept (next_ref w)) m)
    end.
    { unfold catalogue_entry.
      keeps_steps (others_kept_refl (next_ref w)) (others_kept_trans (next_ref w))
                  others_prim. }
    rewrite (K (snd (new_dict w)) r Hr). cbn. now apply heap_put_other.
  - intros r H.
    destruct (build_price_dict float_of_str price_data w) as [res w'] eqn:B.
    cbn in H. subst res. now apply (build_price_dict_contents float_of_str _ _ _ _ B).
  - apply build_price_dict_env.
Qed.

(** X13: for a catalogue document that is neither a sequence nor a mapping,
    [build_price_dict] prints the format message and returns an empty
    mapping. *)
Theorem build_price_dict_not_a_catalogue (price_data : value) (w : world) :
  is_list price_data = false -> is_dict price_data = false ->
  fst (build_price_dict float_of_str price_data w) = Ok (next_ref w) /\
  heap (snd (build_price_dict float_of_str price_data w)) (next_ref w) = [] /\
  stdout (snd (build_price_dict float_of_str price_data w))
  = stdout w ++ [MsgFormatoCatalogo].
Proof.
  intros Hl Hd. destruct price_data; try discriminate;
    (split; [reflexivity | split; [apply heap_put_same | reflexivity]]).
Qed.

(** X14: a catalogue given as a single mapping is treated as the sequence
    of that one entry: [build_price_dict] returns or raises alike on both, and
    the mappings built hold the same items. *)
Theorem build_price_dict_single_mapping (items : list (string * value)) (w : world) :
  fst (build_price_dict float_of_str (VDict items) w)
  = fst (build_price_dict float_of_str (VList [VDict items]) w) /\
  heap (snd (build_price_dict float_of_str (VDict items) w)) (next_ref w)
  = heap (snd (build_price_dict float_of_str (VList [VDict items]) w)) (next_ref w).
Proof.
  unfold build_price_dict. rewrite !bind_new_dict. cbn [for_in].
  unfold catalogue_entry. cbn [py_get]. unfold bind, lift.
  destruct (is_none (items_get "title" items) || is_none (items_get "price" items));
    [split; reflexivity|].
  unfold try_except, dict_setitem.
  destruct (py_float float_of_str (items_get "price" items)) as [p|e].
  - cbn. destruct (key_of (items_get "title" items)); split; reflexivity.
  - destruct (handled_by [ValueError] e); split; reflexivity.
Qed.

(** X15: the titles of the mapping that [build_price_dict] returns are
    pairwise distinct. *)
Theorem build_price_dict_keys_unique (price_data : value) (w w' : world) (r : ref) :
  build_price_dict float_of_str price_data w = (Ok r, w') ->
  NoDup (map fst (heap w' r)).
Proof.
  intros H. apply build_price_dict_contents in H. destruct H as [_ ->].
  apply apply_entries_NoDup. constructor.
Qed.

(** X16: the mapping that [build_price_dict] returns has no more items than
    the catalogue has entries. *)
Theorem build_price_dict_size (price_data : value) (w w' : world) (r : ref) :
  build_price_dict float_of_str price_data w = (Ok r, w') ->
  (List.length (heap w' r) <= List.length (catalogue_entries price_data))%nat.
Proof.
  intros H. apply build_price_dict_contents in H. destruct H as [_ ->].
  apply (apply_entries_length float_of_str (catalogue_entries price_data) []).
Qed.

(** X17: when [build_price_dict] returns, it has printed one line for each
    entry that it skipped, in the order of the entries, and nothing for the
    valid ones. *)
Theorem build_price_dict_logs (price_data : value) (w w' : world) (r : ref) :
  build_price_dict float_of_str price_data w = (Ok r, w') ->
  stdout w' = stdout w ++ catalogue_log float_of_str price_data.
Proof.
  intros H. unfold build_price_dict in H. rewrite bind_new_dict in H.
  destruct price_data; try (cbn in H; injection H as _ <-; reflexivity).
  - unfold bind in H.
    destruct (for_in _ items tt _) as [[[]|e] w1] eqn:L; [|discriminate].
    cbn in H. injection H as _ <-.
    now rewrite (catalogue_loop_stdout float_of_str _ _ _ _ L).
  - cbn [py_get catalogue_log] in *. unfold bind, lift in H.
    destruct (is_none (items_get "title" items) || is_none (items_get "price" items)).
    { cbn in H. injection H as _ <-. reflexivity. }
    unfold try_except, dict_setitem in H.
    destruct (py_float float_of_str (items_get "price" items)) as [p|e].
    + cbn in H. destruct (key_of (items_get "title" items)); [|discriminate].
      cbn in H. injection H as _ <-. cbn. now rewrite app_nil_r.
    + destruct (handled_by [ValueError] e); [|discriminate].
      cbn in H. injection H as _ <-. reflexivity.
Qed.

End BuilderFrame.

Lemma build_price_dict_not_a_catalogue_witness :
  fst (build_price_dict no_numeral (VStr "Widget") (world_with [] [])) = Ok 1%nat /\
  heap (snd (build_price_dict no_numeral (VStr "Widget") (world_with [] []))) 1%nat = [] /\
  stdout (snd (build_price_dict no_numeral (VStr "Widget") (world_with [] [])))
  = [MsgFormatoCatalogo].
Proof.
  exact (build_price_dict_not_a_catalogue no_numeral (VStr "Widget") (world_with [] [])
           eq_refl eq_refl).
Defined.

Lemma build_price_dict_keys_unique_witness :
  NoDup (map fst (heap (snd (build_price_dict no_numeral catalogue_mixed
                               (world_with [] []))) 1%nat)).
Proof.
  apply (build_price_dict_keys_unique no_numeral catalogue_mixed (world_with [] [])).
  vm_compute; reflexivity.
Defined.

Lemma build_price_dict_size_witness :
  (List.length (heap (snd (build_price_dict no_numeral catalogue_mixed
                             (world_with [] []))) 1%nat) <= 4)%nat.
Proof.
  apply (build_price_dict_size no_numeral catalogue_mixed (world_with [] [])).
  vm_compute; reflexivity.
Defined.

Lemma build_price_dict_logs_witness :
  stdout (snd (build_price_dict no_numeral catalogue_mixed (world_with [] [])))
  = [MsgFaltaTitlePrice; MsgPrecioInvalidoSeOmite (VStr "Gadget")].
Proof.
  apply (build_price_dict_logs no_numeral catalogue_mixed (world_with [] [])
           (snd (build_price_dict no_numeral catalogue_mixed (world_with [] []))) 1%nat).
  vm_compute; reflexivity.
Defined.

(** ** The run *)

Section MainRuns.

Variable float_of_str : string -> option float.

Lemma main_start (prog price_file sales_file : string) (w : world) :
  argv w = [prog; price_file; sales_file] ->
  main float_of_str w =
  (price_data <- load_json_file price_file ;;
   (if is_none price_data then print MsgErrorCatalogo ;;; sys_exit 1 else ret tt) ;;;
   sales_data <- load_json_file sales_file ;;
   (if is_none sales_data then print MsgErrorVentas ;;; sys_exit 1 else ret tt) ;;;
   res <- compute_sales float_of_str price_data sales_data ;;
   now <- time_time ;;
   let elapsed_time := (now - clock w (ticks w))%float in
   let result_str := Report (fst res) (snd res) elapsed_time in
   print (MsgResultados result_str) ;;;
   try_except (open_and_write "SalesResults.txt" result_str) [OSError]
     (fun e => print (MsgErrorEscribir e))) (snd (time_time w)).
Proof.
  intros H. unfold main, bind. cbn [time_time len_sys_argv sys_argv argv snd].
  rewrite H. cbn [List.length Nat.eqb negb ret nth]. reflexivity.
Qed.

Lemma load_result_tick (w : world) (path : string) :
  load_result (snd (time_time w)) path = load_result w path /\
  load_log (snd (time_time w)) path = load_log w path.
Proof. split; reflexivity. Qed.

(** X18: with two arguments, when the catalogue file cannot be opened or
    parsed, or holds the document [null], [main] prints what the loader
    printed and the catalogue message, and exits with status 1 after one
    reading of the clock: the sales file is not looked at, and no file is
    written. *)
Theorem main_catalogue_unavailable (prog price_file sales_file : string) (w : world) :
  argv w = [prog; price_file; sales_file] ->
  unavailable w price_file = true ->
  main float_of_str w
  = (Raise (Exn SystemExit 1),
     log_lines (load_log w price_file ++ [MsgErrorCatalogo]) (snd (time_time w))).
Proof.
  intros Hargv Hu. rewrite (main_start _ _ _ _ Hargv).
  unfold bind at 1. rewrite load_json_file_spec.
  destruct (load_result_tick w price_file) as [-> ->].
  unfold unavailable in Hu.
  destruct (load_result w price_file) as [[]|]; try discriminate.
  cbn [is_none]. unfold bind, sys_exit, raise. cbn [print].
  rewrite <- log_lines_app. reflexivity.
Qed.

(** X19: with two arguments and a catalogue document, when the sales file
    cannot be opened or parsed, or holds [null], [main] prints what the loader
    printed and the sales message, and exits with status 1: the catalogue is
    not built, and no file is written. *)
Theorem main_sales_unavailable (prog price_file sales_file : string) (w : world)
    (price_data : value) :
  argv w = [prog; price_file; sales_file] ->
  disk w price_file = Ok price_data ->
  is_none price_data = false ->
  unavailable w sales_file = true ->
  main float_of_str w
  = (Raise (Exn SystemExit 1),
     log_lines (load_log w sales_file ++ [MsgErrorVentas]) (snd (time_time w))).
Proof.
  intros Hargv Hp Np Hu. rewrite (main_start _ _ _ _ Hargv).
  unfold bind at 1. rewrite load_json_file_spec.
  destruct (load_result_tick w price_file) as [-> ->].
  unfold load_result at 1, load_log at 1. rewrite Hp, log_lines_nil, Np.
  unfold bind at 1. cbn [ret]. unfold bind at 1. rewrite load_json_file_spec.
  destruct (load_result_tick w sales_file) as [-> ->].
  unfold unavailable in Hu.
  destruct (load_result w sales_file) as [[]|]; try discriminate.
  cbn [is_none]. unfold bind, sys_exit, raise. cbn [print].
  rewrite <- log_lines_app. reflexivity.
Qed.

(** Past the two loads. *)
Lemma main_loaded (prog price_file sales_file : string) (w : world)
    (price_data sales_data : value) :
  argv w = [prog; price_file; sales_file] ->
  disk w price_file = Ok price_data -> is_none price_data = false ->
  disk w sales_file = Ok sales_data -> is_none sales_data = false ->
  main float_of_str w =
  (res <- compute_sales float_of_str price_data sales_data ;;
   now <- time_time ;;
   let result_str := Report (fst res) (snd res) (now - clock w (ticks w))%float in
   print (MsgResultados result_str) ;;;
   try_except (open_and_write "SalesResults.txt" result_str) [OSError]
     (fun e => print (MsgErrorEscribir e))) (snd (time_time w)).
Proof.
  intros Hargv Hp Np Hs Ns. rewrite (main_start _ _ _ _ Hargv).
  unfold bind at 1. rewrite load_json_file_spec.
  destruct (load_result_tick w price_file) as [-> ->].
  unfold load_result at 1, load_log at 1. rewrite Hp, log_lines_nil, Np.
  unfold bind at 1. cbn [ret]. unfold bind at 1. rewrite load_json_file_spec.
  destruct (load_result_tick w sales_file) as [-> ->].
  unfold load_result at 1, load_log at 1. rewrite Hs, log_lines_nil, Ns.
  unfold bind at 1. cbn [ret]. reflexivity.
Qed.

(** X20: a complete run.  With two arguments and two documents, when the
    computation returns [(t, n)] and the report file can be written, [main]
    returns; the last line printed is the report of [t], [n] and the
    difference of the two readings of the clock, and the same report
    replaces the report file, next to the other files. *)
Theorem main_report (prog price_file sales_file : string) (w w1 : world)
    (price_data sales_data : value) (t : float) (n : nat) :
  argv w = [prog; price_file; sales_file] ->
  disk w price_file = Ok price_data -> is_none price_data = false ->
  disk w sales_file = Ok sales_data -> is_none sales_data = false ->
  compute_sales float_of_str price_data sales_data (snd (time_time w)) = (Ok (t, n), w1) ->
  write_error w "SalesResults.txt" = None ->
  fst (main float_of_str w) = Ok tt /\
  stdout (snd (main float_of_str w)) = stdout w1 ++ [MsgResultados (report_of w t n)] /\
  written (snd (main float_of_str w))
  = ("SalesResults.txt", report_of w t n) :: other_files "SalesResults.txt" w.
Proof.
  intros Hargv Hp Np Hs Ns Hc Hw.
  pose proof (compute_sales_env float_of_str price_data sales_data (snd (time_time w))) as E.
  rewrite Hc in E. destruct E as (_ & Ec & Et & _ & Ew & Ef). cbn in Ec, Et, Ew, Ef.
  assert (Hm : main float_of_str w
               = (Ok tt,
                  snd (open_and_write "SalesResults.txt" (report_of w t n)
                         (log_lines [MsgResultados (report_of w t n)]
                            (snd (time_time w1)))))).
  { rewrite (main_loaded _ _ _ _ _ _ Hargv Hp Np Hs Ns).
    unfold bind at 1. rewrite Hc. unfold bind at 1. cbn [time_time fst snd].
    rewrite Ec, Et. fold (report_of w t n).
    unfold bind, try_except, open_and_write.
    cbn [print write_error log_lines]. rewrite Ew, Hw. reflexivity. }
  rewrite Hm. unfold open_and_write, other_files.
  cbn [log_lines write_error time_time snd fst]. rewrite Ew, Hw.
  cbn [snd stdout written]. rewrite Ef. repeat split.
Qed.

(** X21: when opening the report file raises an [OSError], the run still
    ends normally: the report is printed, then the message of the failure,
    and the files are as they were. *)
Theorem main_report_unwritable (prog price_file sales_file : string) (w w1 : world)
    (price_data sales_data : value) (t : float) (n : nat) (e : exn) :
  argv w = [prog; price_file; sales_file] ->
  disk w price_file = Ok price_data -> is_none price_data = false ->
  disk w sales_file = Ok sales_data -> is_none sales_data = false ->
  compute_sales float_of_str price_data sales_data (snd (time_time w)) = (Ok (t, n), w1) ->
  write_error w "SalesResults.txt" = Some e ->
  handled_by [OSError] e = true ->
  fst (main float_of_str w) = Ok tt /\
  stdout (snd (main float_of_str w))
  = stdout w1 ++ [MsgResultados (report_of w t n); MsgErrorEscribir e] /\
  written (snd (main float_of_str w)) = written w.
Proof.
  intros Hargv Hp Np Hs Ns Hc Hw He.
  pose proof (compute_sales_env float_of_str price_data sales_data (snd (time_time w))) as E.
  rewrite Hc in E. destruct E as (_ & Ec & Et & _ & Ew & Ef). cbn in Ec, Et, Ew, Ef.
  assert (Hm : main float_of_str w
               = (Ok tt,
                  log_lines [MsgResultados (report_of w t n); MsgErrorEscribir e]
                    (snd (time_time w1)))).
  { rewrite (main_loaded _ _ _ _ _ _ Hargv Hp Np Hs Ns).
    unfold bind at 1. rewrite Hc. unfold bind at 1. cbn [time_time fst snd].
    rewrite Ec, Et. fold (report_of w t n).
    unfold bind, try_except, open_and_write.
    cbn [print write_error log_lines]. rewrite Ew, Hw, He.
    unfold print, log_lines. cbn. rewrite <- app_assoc. reflexivity. }
  rewrite Hm. cbn [log_lines time_time snd fst stdout written]. rewrite Ef.
  repeat split.
Qed.

(** X22: an exception that escapes from the catalogue builder or the sales
    processor ends [main] with that exception; the report is neither printed
    nor written. *)
Theorem main_run_fails (prog price_file sales_file : string) (w w1 : world)
    (price_data sales_data : value) (e : exn) :
  argv w = [prog; price_file; sales_file] ->
  disk w price_file = Ok price_data -> is_none price_data = false ->
  disk w sales_file = Ok sales_data -> is_none sales_data = false ->
  compute_sales float_of_str price_data sales_data (snd (time_time w)) = (Raise e, w1) ->
  main float_of_str w = (Raise e, w1) /\ written w1 = written w.
Proof.
  intros Hargv Hp Np Hs Ns Hc.
  pose proof (compute_sales_env float_of_str price_data sales_data (snd (time_time w))) as E.
  rewrite Hc in E. destruct E as (_ & _ & _ & _ & _ & Ef). cbn in Ef.
  rewrite (main_loaded _ _ _ _ _ _ Hargv Hp Np Hs Ns).
  unfold bind at 1. rewrite Hc. split; [reflexivity | exact Ef].
Qed.
End MainRuns.

Lemma main_catalogue_unavailable_witness :
  main no_numeral (run_world (two_files (Ok VNone) (Ok (VList sales_three_widgets))) None)
  = (Raise (Exn SystemExit 1),
     log_lines [MsgErrorCatalogo]
       (snd (time_time (run_world (two_files (Ok VNone) (Ok (VList sales_three_widgets)))
                          None)))).
Proof.
  exact (main_catalogue_unavailable no_numeral "computeSales.py" "catalogue.json" "sales.json"
           (run_world (two_files (Ok VNone) (Ok (VList sales_three_widgets))) None)
           eq_refl eq_refl).
Defined.

Lemma main_sales_unavailable_witness :
  main no_numeral
    (run_world (two_files (Ok widget_catalogue) (Raise (raised JSONDecodeError))) None)
  = (Raise (Exn SystemExit 1),
     log_lines [MsgErrorAlLeer "sales.json" (raised JSONDecodeError); MsgErrorVentas]
       (snd (time_time
               (run_world (two_files (Ok widget_catalogue) (Raise (raised JSONDecodeError)))
                  None)))).
Proof.
  exact (main_sales_unavailable no_numeral "computeSales.py" "catalogue.json" "sales.json"
           (run_world (two_files (Ok widget_catalogue) (Raise (raised JSONDecodeError))) None)
           widget_catalogue eq_refl eq_refl eq_refl eq_refl).
Defined.

Lemma main_report_witness :
  fst (main no_numeral
         (run_world (two_files (Ok widget_catalogue) (Ok (VList sales_three_widgets))) None))
  = Ok tt /\
  stdout (snd (main no_numeral
                 (run_world (two_files (Ok widget_catalogue)
                               (Ok (VList sales_three_widgets))) None)))
  = [MsgResultados (Report 7.5 0 2.5)] /\
  written (snd (main no_numeral
                  (run_world (two_files (Ok widget_catalogue)
                                (Ok (VList sales_three_widgets))) None)))
  = [("SalesResults.txt", Report 7.5 0 2.5); ("notes.txt", Report 0 0 0)].
Proof.
  exact (main_report no_numeral "computeSales.py" "catalogue.json" "sales.json"
           (run_world (two_files (Ok widget_catalogue) (Ok (VList sales_three_widgets))) None)
           (snd (compute_sales no_numeral widget_catalogue (VList sales_three_widgets)
                   (snd (time_time
                           (run_world (two_files (Ok widget_catalogue)
                                         (Ok (VList sales_three_widgets))) None)))))
           widget_catalogue (VList sales_three_widgets) 7.5%float O
           eq_refl eq_refl eq_refl eq_refl eq_refl eq_refl eq_refl).
Defined.

Lemma main_report_unwritable_witness :
  fst (main no_numeral
         (run_world (two_files (Ok widget_catalogue) (Ok (VList sales_three_widgets)))
            (Some (raised PermissionError))))
  = Ok tt /\
  stdout (snd (main no_numeral
                 (run_world (two_files (Ok widget_catalogue)
                               (Ok (VList sales_three_widgets)))
                    (Some (raised PermissionError)))))
  = [MsgResultados (Report 7.5 0 2.5); MsgErrorEscribir (raised PermissionError)] /\
  written (snd (main no_numeral
                  (run_world (two_files (Ok widget_catalogue)
                                (Ok (VList sales_three_widgets)))
                     (Some (raised PermissionError)))))
  = [("SalesResults.txt", Report 1 1 1); ("notes.txt", Report 0 0 0)].
Proof.
  exact (main_report_unwritable no_numeral "computeSales.py" "catalogue.json" "sales.json"
           (run_world (two_files (Ok widget_catalogue) (Ok (VList sales_three_widgets)))
              (Some (raised PermissionError)))
           (snd (compute_sales no_numeral widget_catalogue (VList sales_three_widgets)
                   (snd (time_time
                           (run_world (two_files (Ok widget_catalogue)
                                         (Ok (VList sales_three_widgets)))
                              (Some (raised PermissionError)))))))
           widget_catalogue (VList sales_three_widgets) 7.5%float O
           (raised PermissionError)
           eq_refl eq_refl eq_refl eq_refl eq_refl eq_refl eq_refl eq_refl).
Defined.

Lemma main_run_fails_witness :
  fst (main no_numeral
         (run_world (two_files (Ok widget_catalogue) (Ok (VList sales_list_product))) None))
  = Raise (raised TypeError) /\
  written (snd (main no_numeral
                  (run_world (two_files (Ok widget_catalogue)
                                (Ok (VList sales_list_product))) None)))
  = [("SalesResults.txt", Report 1 1 1); ("notes.txt", Report 0 0 0)].
Proof.
  destruct (main_run_fails no_numeral "computeSales.py" "catalogue.json" "sales.json"
              (run_world (two_files (Ok widget_catalogue) (Ok (VList sales_list_product)))
                 None)
              (snd (compute_sales no_numeral widget_catalogue (VList sales_list_product)
                      (snd (time_time
                              (run_world (two_files (Ok widget_catalogue)
                                            (Ok (VList sales_list_product))) None)))))
              widget_catalogue (VList sales_list_product) (raised TypeError)
              eq_refl eq_refl eq_refl eq_refl eq_refl eq_refl) as [Hm Hf].
  rewrite Hm. split; [reflexivity | exact Hf].
Defined.

Lemma files_kept_refl (path : string) (w : world) : files_kept_except path w w.
Proof. reflexivity. Qed.

Lemma files_kept_trans (path : string) (a b c : world) :
  files_kept_except path a b -> files_kept_except path b c -> files_kept_except path a c.
Proof. unfold files_kept_except. congruence. Qed.

Lemma filter_twice {A} (f : A -> bool) (l : list A) :
  filter f (filter f l) = filter f l.
Proof.
  induction l as [|x l IH]; cbn; [reflexivity|].
  destruct (f x) eqn:E; cbn; [rewrite E|]; now rewrite IH.
Qed.

Ltac files_prim :=
  idtac;
  match goal with
  | |- keeps (files_kept_except _) (print _) => intros ?; reflexivity
  | |- keeps (files_kept_except _) new_dict => intros ?; reflexivity
  | |- keeps (files_kept_except _) time_time => intros ?; reflexivity
  | |- keeps (files_kept_except _) len_sys_argv => intros ?; reflexivity
  | |- keeps (files_kept_except _) (sys_argv _) => intros ?; reflexivity
  | |- keeps (files_kept_except _) (open_and_load _) => intros ?; reflexivity
  | |- keeps (files_kept_except _) (dict_setitem _ ?k _) =>
      intros ?; unfold dict_setitem; destruct (key_of k); reflexivity
  | |- keeps (files_kept_except _) (dict_get _ ?k) =>
      intros ?; unfold dict_get; destruct (key_of k); reflexivity
  | |- keeps (files_kept_except ?p) (open_and_write ?p _) =>
      let w := fresh "w" in
      intros w; unfold open_and_write, files_kept_except, other_files;
      destruct (write_error w p); cbn [snd written filter fst];
      [reflexivity | rewrite String.eqb_refl; cbn [negb]; apply filter_twice]
  | |- keeps _ (let _ := _ in _) => cbv zeta
  end.

(** X23: whatever the arguments, the disk and the documents, and whether
    [main] returns, exits or raises, the files other than [SalesResults.txt]
    are as they were. *)
Theorem main_writes_only_report (float_of_str : string -> option float) (w : world) :
  other_files "SalesResults.txt" (snd (main float_of_str w))
  = other_files "SalesResults.txt" w.
Proof.
  assert (K : keeps (files_kept_except "SalesResults.txt") (main float_of_str)).
  { unfold main, load_json_file, compute_sales, build_price_dict, process_sales,
      catalogue_entry, sale_record, sys_exit.
    keeps_steps (files_kept_refl "SalesResults.txt") (files_kept_trans "SalesResults.txt")
                files_prim. }
  apply K.
Qed.
